(** * mrelo: the Elo rating pipeline and its hyperparameter optimizer

    A shallow embedding of [mrelo/hyperparams.py], [mrelo/elo.py] and
    [mrelo/optimizer.py].

    Numbers.  The pipeline is embedded twice.  In the first embedding Python
    floats are idealised as real numbers: rounding is not modelled, what
    Python *raises* is: [math.pow] raises [OverflowError] when its result
    leaves the range of a double, a float division by zero raises
    [ZeroDivisionError], a missing dict key raises [KeyError], an order
    comparison with [None] raises [TypeError].  The replay and the optimizer
    are built on it.  In the second embedding, module [Float64], the
    functions of [elo.py] compute on IEEE 754 doubles, every operation
    rounded as the hardware rounds it; C's [pow] and [log] are parameters
    there.  What depends on rounding is stated in [Float64]; what is said
    of the real-number embedding is said of exact arithmetic.
    The search ranges of the hyperparameters are decimal literals and are
    kept as exact rationals. *)

From Stdlib Require Import Floats.PrimFloat.
From Stdlib Require Floats.SpecFloat Floats.FloatOps.
From Stdlib Require Import Reals Qreals Psatz ZArith QArith Qround List String Bool
  Sorted.
From stdpp Require Import base gmap strings.
Import ListNotations.

Local Open Scope R_scope.

(* ===================================================================== *)
(** ** Python exceptions and the error monad *)
(* ===================================================================== *)

Inductive exn : Type :=
| OverflowError
| ZeroDivisionError
| KeyError
| TypeError
| ValueError
| IndexError.

Inductive result (A : Type) : Type :=
| Ok (a : A)
| Raise (e : exn).

Arguments Ok {A} a.
Arguments Raise {A} e.

Definition bind {A B : Type} (m : result A) (k : A -> result B) : result B :=
  match m with
  | Ok a => k a
  | Raise e => Raise e
  end.

Notation "'let*' x ':=' m 'in' k" := (bind m (fun x => k))
  (at level 10, x name, m at level 100, k at level 200).

(* ===================================================================== *)
(** ** hyperparams.py *)
(* ===================================================================== *)

(** [class Params(enum.IntEnum)]: the twelve members, in index order. *)
Inductive Params : Type :=
| start | elo_avg | revert
| rest_mul | hfa_mod
| k_start | k_end | k_rate | ac_mul | ac_mod | mov_mul | mov_mod.

Definition Params_eq_dec (a b : Params) : {a = b} + {a <> b}.
Proof. decide equality. Defined.

(** Iteration order of the enum ([for g in Params]). *)
Definition all_Params : list Params :=
  [start; elo_avg; revert; rest_mul; hfa_mod;
   k_start; k_end; k_rate; ac_mul; ac_mod; mov_mul; mov_mod].

(** [Param.index] / [__int__] / [__index__]. *)
Definition index (g : Params) : Z :=
  match g with
  | start => 0 | elo_avg => 1 | revert => 2
  | rest_mul => 3 | hfa_mod => 4
  | k_start => 5 | k_end => 6 | k_rate => 7
  | ac_mul => 8 | ac_mod => 9 | mov_mul => 10 | mov_mod => 11
  end%Z.

(** [space_dict(low, high, step)]. *)
Record space_dict : Type := mk_space { low : Q; high : Q; step : Q }.

(** [Param.space] of each member. *)
Definition space (g : Params) : space_dict :=
  match g with
  | start    => mk_space 800 1500 5
  | elo_avg  => mk_space 900 1700 5
  | revert   => mk_space (5 # 100) (55 # 100) (1 # 100)
  | rest_mul => mk_space (-25) 25 (25 # 100)
  | hfa_mod  => mk_space (-20) 120 (5 # 10)
  | k_start  => mk_space 2 60 1
  | k_end    => mk_space 2 60 1
  | k_rate   => mk_space 4 20 1
  | ac_mul   => mk_space (1 # 1000) (1 # 100) (1 # 1000)
  | ac_mod   => mk_space (35 # 10) 12 (25 # 100)
  | mov_mul  => mk_space (5 # 100) (95 # 100) (25 # 1000)
  | mov_mod  => mk_space 0 2 (2 # 10)
  end%Q.

(** A configuration: a dict keyed by [Params]; [None] is an absent key. *)
Definition config : Type := Params -> option R.

Definition empty_cfg : config := fun _ => None.

Definition cfg_set (g : Params) (v : R) (c : config) : config :=
  fun g' => if Params_eq_dec g g' then Some v else c g'.

(** [{g1: v1, g2: v2, ...}]: later entries win, as in a dict display. *)
Definition mk_cfg (kvs : list (Params * R)) : config :=
  fold_left (fun c kv => cfg_set (fst kv) (snd kv) c) kvs empty_cfg.

(** [g in cfg]. *)
Definition cfg_in (g : Params) (c : config) : bool :=
  match c g with Some _ => true | None => false end.

(** [cfg[g]]. *)
Definition cfg_get (c : config) (g : Params) : result R :=
  match c g with Some v => Ok v | None => Raise KeyError end.

(* ===================================================================== *)
(** ** Python numeric primitives used by elo.py *)
(* ===================================================================== *)

(** Largest finite double, [sys.float_info.max]. *)
Definition float_max : R := (2 - / 2 ^ 52) * 2 ^ 1023.

(** [math.pow(10, y)]: [OverflowError] when the result is out of range. *)
Definition math_pow10 (y : R) : result R :=
  if Rlt_dec float_max (Rpower 10 y) then Raise OverflowError
  else Ok (Rpower 10 y).

(** [a / b] on floats. *)
Definition py_div (a b : R) : result R :=
  if Req_dec_T b 0 then Raise ZeroDivisionError else Ok (a / b).

(* ===================================================================== *)
(** ** elo.py *)
(* ===================================================================== *)

(** [elo_probability(rating_diff)] *)
Definition elo_probability (rating_diff : R) : result R :=
  let* p := math_pow10 (- rating_diff / 400) in
  py_div 1 (p + 1).

(** [n > 0] where [n] is an [int] or [None]. *)
Definition py_gt0 (n : option Z) : result bool :=
  match n with
  | Some k => Ok (0 <? k)%Z
  | None => Raise TypeError
  end.

(** [n is None] *)
Definition is_None (n : option Z) : bool :=
  match n with Some _ => false | None => true end.

(** [shift_elo_pre(elo_pre, n, cfg)] *)
Definition shift_elo_pre (elo_pre : R) (n : option Z) (cfg : config) : result R :=
  let* pos := py_gt0 n in
  if pos || is_None n then Ok 0
  else
    (* season start *)
    let* elo_post :=
      (if cfg_in elo_avg cfg then
         let* a := cfg_get cfg elo_avg in
         let* r := cfg_get cfg revert in
         let reverted_elo := a * r in
         let* r' := cfg_get cfg revert in
         let existing_elo := elo_pre * (1 - r') in
         Ok (reverted_elo + existing_elo)
       else Ok elo_pre) in
    Ok (elo_post - elo_pre).

(** [calc_pre_diff(elo_pre1, elo_pre2, rest1, rest2, is_neutral, cfg)] *)
Definition calc_pre_diff (elo_pre1 elo_pre2 : R) (rest1 rest2 : Z)
    (is_neutral : bool) (cfg : config) : R :=
  let rating_diff := elo_pre1 - elo_pre2 in
  (* Home field advantage *)
  let rating_diff :=
    match negb is_neutral, cfg hfa_mod with
    | true, Some h => rating_diff + h
    | _, _ => rating_diff
    end in
  (* Rest diff *)
  let rating_diff :=
    match cfg rest_mul with
    | Some m => rating_diff + m * IZR (rest1 - rest2)
    | None => rating_diff
    end in
  rating_diff.

(** [math.log(x)]: a domain error is a [ValueError]. *)
Definition math_log (x : R) : result R :=
  if Rle_dec x 0 then Raise ValueError else Ok (ln x).

(** [b ** e] on floats.  A negative base with a fractional exponent gives a
    complex number in Python 3; the embedding has only real values, so the
    computation stops there with [TypeError] (where Python stops a little
    later, or carries the complex number on). *)
Definition py_pow (b e : R) : result R :=
  if Req_dec_T e 0 then Ok 1
  else if Rlt_dec 0 b then
    (if Rlt_dec float_max (Rpower b e) then Raise OverflowError
     else Ok (Rpower b e))
  else if Req_dec_T b 0 then
    (if Rlt_dec e 0 then Raise ZeroDivisionError else Ok 0)
  else if Req_dec_T e (IZR (Int_part e)) then
    (if Rlt_dec float_max (Rabs (powerRZ b (Int_part e)))
     then Raise OverflowError
     else Ok (powerRZ b (Int_part e)))
  else Raise TypeError.

(** [n1 + n2] on [int]s that may be [None]. *)
Definition py_add_int (n1 n2 : option Z) : result Z :=
  match n1, n2 with
  | Some a, Some b => Ok (a + b)%Z
  | _, _ => Raise TypeError
  end.

(** [shift_elo_post(rating_diff, mov, n1, n2, cfg, ac_mov_log=True)] *)
Definition shift_elo_post (rating_diff : R) (mov : R) (n1 n2 : option Z)
    (cfg : config) (ac_mov_log : bool) : result R :=
  (* CHANGE RATING DIFF TO WINNER'S PERSPECTIVE *)
  let winner_r_diff :=
    if Rlt_dec 0 mov then rating_diff            (* home win *)
    else if Req_dec_T mov 0 then 0               (* tie *)
    else - rating_diff in                        (* away win *)
  (* AC: Winner *)
  let* ac_adj :=
    (if cfg_in ac_mod cfg then
       let* num := cfg_get cfg ac_mod in
       let* m := cfg_get cfg ac_mul in
       let* d := cfg_get cfg ac_mod in
       py_div num (winner_r_diff * m + d)
     else Ok 1) in
  (* AC: MOV *)
  let* mov_mult :=
    (if cfg_in mov_mul cfg then
       if ac_mov_log then
         let abs_mov := Rmax (Rabs mov) 1 in
         let* mm := cfg_get cfg mov_mul in
         let* l := math_log abs_mov in
         let* md := cfg_get cfg mov_mod in
         Ok (mm * l + md)
       else
         let* md := cfg_get cfg mov_mod in
         let* mm := cfg_get cfg mov_mul in
         py_pow (mov + md) mm
     else Ok 1) in
  (* COMPARE TO PRE-MATCH EXPECTED OUTCOME *)
  let* win_prob1 := elo_probability rating_diff in
  let win1 := if Rlt_dec 0 mov then 1 else 0 in
  let expectation_adj := win1 - win_prob1 in
  (* COMBINE ALL MODIFIERS *)
  let* k := cfg_get cfg k_start in
  let* k :=
    (if cfg_in k_rate cfg then
       let* n := py_add_int n1 n2 in
       let n_adj := IZR n / 2 in
       let* rate := cfg_get cfg k_rate in
       if Rle_dec n_adj rate then Ok k else cfg_get cfg k_end
     else Ok k) in
  let shift := k * expectation_adj * mov_mult * ac_adj in
  Ok shift.

(** A float that may be not-a-number (a score, a margin of victory). *)
Inductive pyfloat : Type :=
| Fin (x : R)
| NaN.

(** [a - b] *)
Definition py_sub (a b : pyfloat) : pyfloat :=
  match a, b with
  | Fin x, Fin y => Fin (x - y)
  | _, _ => NaN
  end.

(** [bool(mov)]: zero is falsy, everything else (not-a-number too) truthy. *)
Definition truthy (mov : pyfloat) : bool :=
  match mov with
  | Fin x => if Req_dec_T x 0 then false else true
  | NaN => true
  end.

(** [math.isnan(mov)] *)
Definition math_isnan (mov : pyfloat) : bool :=
  match mov with Fin _ => false | NaN => true end.

(** The five values [calc_elo] returns:
    [(elo_pre1, elo_pre2, elo_post1, elo_post2, elo_prob1)]. *)
Definition elo_tuple : Type := (R * R * R * R * R)%type.

(** [calc_elo(cfg, elo_pre1, elo_pre2, mov, n1, n2, rest1, rest2, neutral)] *)
Definition calc_elo (cfg : config) (elo_pre1 elo_pre2 : R) (mov : pyfloat)
    (n1 n2 : option Z) (rest1 rest2 : Z) (neutral : bool) : result elo_tuple :=
  let* s1 := shift_elo_pre elo_pre1 n1 cfg in
  let elo_pre1 := elo_pre1 + s1 in
  let* s2 := shift_elo_pre elo_pre2 n2 cfg in
  let elo_pre2 := elo_pre2 + s2 in
  let pre_diff := calc_pre_diff elo_pre1 elo_pre2 rest1 rest2 neutral cfg in
  let* post_shift :=
    (if truthy mov && negb (math_isnan mov) then
       match mov with
       | Fin m => shift_elo_post pre_diff m n1 n2 cfg true
       | NaN => Ok 0   (* excluded by the test above *)
       end
     else Ok 0) in
  let elo_post1 := elo_pre1 + post_shift in
  let elo_post2 := elo_pre2 - post_shift in
  let* elo_prob1 := elo_probability pre_diff in
  Ok (elo_pre1, elo_pre2, elo_post1, elo_post2, elo_prob1).

(* ===================================================================== *)
(** ** elo.py in double precision *)
(* ===================================================================== *)

(** The functions of [elo.py] once more, on IEEE 754 doubles: [float] is
    the binary64 type, and [+], [-], [*], [/], [<?], [<=?], [=?] are its
    correctly rounded operations and its comparisons.  Python [int]s that
    meet a float are converted first ([float_of_int]). *)

Module Float64.
Import PrimFloat.
Local Open Scope float_scope.

(** What CPython takes from the platform: C's [pow] and [log], which
    [math.pow] and [math.log] wrap, and the power [b ** e] of two floats
    where it gives a float or raises (with a negative base and a
    fractional exponent Python gives a complex number, which has no place
    here: only the non-default mode of [shift_elo_post] takes a power, and
    no statement below is about that mode). *)
Record libm : Type := mk_libm {
  c_pow : float -> float -> float;
  c_log : float -> float;
  float_pow : float -> float -> result float
}.

(** [n * 2^e] rounded to the nearest double, ties to even; infinite
    beyond the range. *)
Definition round_int (n e : Z) : float :=
  FloatOps.SF2Prim
    (SpecFloat.binary_normalize FloatOps.prec FloatOps.emax n e false).

(** [float(n)], the conversion an [int] undergoes when it meets a float:
    [OverflowError] for an [int] too large to convert. *)
Definition float_of_int (n : Z) : result float :=
  let f := round_int n 0 in
  if is_infinity f then Raise OverflowError else Ok f.

(** [n / 2] on an [int]: true division, the quotient rounded once;
    [OverflowError] for a result too large for a float. *)
Definition int_half (n : Z) : result float :=
  let f := round_int n (-1) in
  if is_infinity f then Raise OverflowError else Ok f.

(** A configuration with double values. *)
Definition config : Type := Params -> option float.

Definition empty_cfg : config := fun _ => None.

Definition cfg_set (g : Params) (v : float) (c : config) : config :=
  fun g' => if Params_eq_dec g g' then Some v else c g'.

Definition mk_cfg (kvs : list (Params * float)) : config :=
  fold_left (fun c kv => cfg_set (fst kv) (snd kv) c) kvs empty_cfg.

Definition cfg_in (g : Params) (c : config) : bool :=
  match c g with Some _ => true | None => false end.

Definition cfg_get (c : config) (g : Params) : result float :=
  match c g with Some v => Ok v | None => Raise KeyError end.

(** [math.pow(10, y)]: CPython answers a not-a-number or infinite [y]
    itself and hands every other to C's [pow]; an infinite result is an
    [OverflowError], a not-a-number one a [ValueError]. *)
Definition math_pow10 (M : libm) (y : float) : result float :=
  if is_nan y then Ok y
  else if is_infinity y then Ok (if 0 <? y then y else 0)
  else
    let r := c_pow M 10 y in
    if is_nan r then Raise ValueError
    else if is_infinity r then Raise OverflowError
    else Ok r.

(** [a / b] on floats. *)
Definition py_div (a b : float) : result float :=
  if b =? 0 then Raise ZeroDivisionError else Ok (a / b).

(** [elo_probability(rating_diff)] *)
Definition elo_probability (M : libm) (rating_diff : float) : result float :=
  let* p := math_pow10 M (- rating_diff / 400) in
  py_div 1 (p + 1).

(** [shift_elo_pre(elo_pre, n, cfg)] *)
Definition shift_elo_pre (elo_pre : float) (n : option Z) (cfg : config)
    : result float :=
  let* pos := py_gt0 n in
  if pos || is_None n then Ok 0
  else
    (* season start *)
    let* elo_post :=
      (if cfg_in elo_avg cfg then
         let* a := cfg_get cfg elo_avg in
         let* r := cfg_get cfg revert in
         let reverted_elo := a * r in
         let* r' := cfg_get cfg revert in
         let existing_elo := elo_pre * (1 - r') in
         Ok (reverted_elo + existing_elo)
       else Ok elo_pre) in
    Ok (elo_post - elo_pre).

(** [calc_pre_diff(elo_pre1, elo_pre2, rest1, rest2, is_neutral, cfg)] *)
Definition calc_pre_diff (elo_pre1 elo_pre2 : float) (rest1 rest2 : Z)
    (is_neutral : bool) (cfg : config) : result float :=
  let rating_diff := elo_pre1 - elo_pre2 in
  (* Home field advantage *)
  let rating_diff :=
    match negb is_neutral, cfg hfa_mod with
    | true, Some h => rating_diff + h
    | _, _ => rating_diff
    end in
  (* Rest diff *)
  let* rating_diff :=
    (match cfg rest_mul with
     | Some m =>
         let* r := float_of_int (rest1 - rest2) in
         Ok (rating_diff + m * r)
     | None => Ok rating_diff
     end) in
  Ok rating_diff.

(** [math.log(x)]: a domain error is a [ValueError]. *)
Definition math_log (M : libm) (x : float) : result float :=
  if is_nan x then Ok x
  else if 0 <? x then (if is_infinity x then Ok x else Ok (c_log M x))
  else Raise ValueError.

(** [max(a, 1)]: the second argument wins only when it is greater. *)
Definition max1 (a : float) : float :=
  if a <? 1 then 1 else a.

(** [shift_elo_post(rating_diff, mov, n1, n2, cfg, ac_mov_log=True)] *)
Definition shift_elo_post (M : libm) (rating_diff : float) (mov : float)
    (n1 n2 : option Z) (cfg : config) (ac_mov_log : bool) : result float :=
  (* CHANGE RATING DIFF TO WINNER'S PERSPECTIVE *)
  let winner_r_diff :=
    if 0 <? mov then rating_diff            (* home win *)
    else if mov =? 0 then 0                 (* tie *)
    else - rating_diff in                   (* away win *)
  (* AC: Winner *)
  let* ac_adj :=
    (if cfg_in ac_mod cfg then
       let* num := cfg_get cfg ac_mod in
       let* m := cfg_get cfg ac_mul in
       let* d := cfg_get cfg ac_mod in
       py_div num (winner_r_diff * m + d)
     else Ok 1) in
  (* AC: MOV *)
  let* mov_mult :=
    (if cfg_in mov_mul cfg then
       if ac_mov_log then
         let abs_mov := max1 (abs mov) in
         let* mm := cfg_get cfg mov_mul in
         let* l := math_log M abs_mov in
         let* md := cfg_get cfg mov_mod in
         Ok (mm * l + md)
       else
         let* md := cfg_get cfg mov_mod in
         let* mm := cfg_get cfg mov_mul in
         float_pow M (mov + md) mm
     else Ok 1) in
  (* COMPARE TO PRE-MATCH EXPECTED OUTCOME *)
  let* win_prob1 := elo_probability M rating_diff in
  let win1 := if 0 <? mov then 1 else 0 in
  let expectation_adj := win1 - win_prob1 in
  (* COMBINE ALL MODIFIERS *)
  let* k := cfg_get cfg k_start in
  let* k :=
    (if cfg_in k_rate cfg then
       let* n := py_add_int n1 n2 in
       let* n_adj := int_half n in
       let* rate := cfg_get cfg k_rate in
       if n_adj <=? rate then Ok k else cfg_get cfg k_end
     else Ok k) in
  let shift := k * expectation_adj * mov_mult * ac_adj in
  Ok shift.

(** [bool(mov)]: zero is falsy, everything else (not-a-number too) truthy. *)
Definition truthy (mov : float) : bool := negb (mov =? 0).

(** The five values [calc_elo] returns. *)
Definition elo_tuple : Type := (float * float * float * float * float)%type.

(** [calc_elo(cfg, elo_pre1, elo_pre2, mov, n1, n2, rest1, rest2, neutral)] *)
Definition calc_elo (M : libm) (cfg : config) (elo_pre1 elo_pre2 : float)
    (mov : float) (n1 n2 : option Z) (rest1 rest2 : Z) (neutral : bool)
    : result elo_tuple :=
  let* s1 := shift_elo_pre elo_pre1 n1 cfg in
  let elo_pre1 := elo_pre1 + s1 in
  let* s2 := shift_elo_pre elo_pre2 n2 cfg in
  let elo_pre2 := elo_pre2 + s2 in
  let* pre_diff :=
    calc_pre_diff elo_pre1 elo_pre2 rest1 rest2 neutral cfg in
  let* post_shift :=
    (if truthy mov && negb (is_nan mov) then
       shift_elo_post M pre_diff mov n1 n2 cfg true
     else Ok 0) in
  let elo_post1 := elo_pre1 + post_shift in
  let elo_post2 := elo_pre2 - post_shift in
  let* elo_prob1 := elo_probability M pre_diff in
  Ok (elo_pre1, elo_pre2, elo_post1, elo_post2, elo_prob1).

(** The notions the statements about [shift_elo_post] are phrased with:
    the rating difference from the winner's side, [actual_win], the
    K-factor, the autocorrelation factor, the margin-of-victory multiplier
    (logarithmic mode) and the expectation error. *)
Definition winner_diff (diff mov : float) : float :=
  if 0 <? mov then diff
  else if mov =? 0 then 0
  else - diff.

Definition actual_win (mov : float) : float :=
  if 0 <? mov then 1 else 0.

Definition k_factor_of (cfg : config) (n1 n2 : Z) (k : float) : Prop :=
  match cfg k_rate with
  | None => cfg k_start = Some k
  | Some rate =>
      exists n_adj,
        int_half (n1 + n2) = Ok n_adj
        /\ if n_adj <=? rate then cfg k_start = Some k
           else cfg k_end = Some k
  end.

Definition ac_of (cfg : config) (diff mov : float) (a : float) : Prop :=
  match cfg ac_mod with
  | None => a = 1
  | Some md =>
      exists ml, cfg ac_mul = Some ml
                 /\ (winner_diff diff mov * ml + md =? 0) = false
                 /\ a = md / (winner_diff diff mov * ml + md)
  end.

Definition mov_mult_of (M : libm) (cfg : config) (mov : float) (m : float)
    : Prop :=
  match cfg mov_mul with
  | None => m = 1
  | Some mm =>
      exists md l, cfg mov_mod = Some md
                   /\ math_log M (max1 (abs mov)) = Ok l
                   /\ m = mm * l + md
  end.

Definition expectation_of (M : libm) (diff mov : float) (e : float) : Prop :=
  exists p, elo_probability M diff = Ok p /\ e = actual_win mov - p.

End Float64.

(* ===================================================================== *)
(** ** optimizer.py: the season replay *)
(* ===================================================================== *)

(** One row of the DataFrame: the nine columns the replay reads, and the
    outcome column [win1] the fitness function scores against. *)
Record row : Type := mk_row {
  fr_team1 : string;
  fr_team2 : string;
  score1 : pyfloat;
  score2 : pyfloat;
  played1 : option Z;
  played2 : option Z;
  rest1 : Z;
  rest2 : Z;
  neutral : bool;
  win1 : R
}.

Definition DataFrame : Type := list row.

(** [Series.unique()]: first occurrences, in order. *)
Fixpoint unique_from (seen : list string) (l : list string) : list string :=
  match l with
  | [] => []
  | x :: l' =>
      if in_dec string_dec x seen then unique_from seen l'
      else x :: unique_from (x :: seen) l'
  end.

(** [pandas.concat([df['fr_team1'], df['fr_team2']]).unique()] *)
Definition all_teams (df : DataFrame) : list string :=
  unique_from [] (List.map fr_team1 df ++ List.map fr_team2 df).

(** [team_elos[t]] *)
Definition dict_get (team_elos : gmap string R) (t : string) : result R :=
  match team_elos !! t with
  | Some v => Ok v
  | None => Raise KeyError
  end.

(** [for t in all_teams: team_elos[t] = cfg[Params.start]] *)
Fixpoint init_teams (ts : list string) (cfg : config)
    (team_elos : gmap string R) : result (gmap string R) :=
  match ts with
  | [] => Ok team_elos
  | t :: ts' =>
      let* s := cfg_get cfg start in
      init_teams ts' cfg (<[t := s]> team_elos)
  end.

(** The [for vals in values] loop of [enrich_elo_vec]; [results] grows by
    [numpy.append] at its end. *)
Fixpoint enrich_loop (cfg : config) (values : list row)
    (team_elos : gmap string R) (results : list elo_tuple)
    : result (list elo_tuple) :=
  match values with
  | [] => Ok results
  | vals :: values' =>
      let team1 := fr_team1 vals in
      let team2 := fr_team2 vals in
      let mov := py_sub (score1 vals) (score2 vals) in
      let* e1 := dict_get team_elos team1 in
      let* e2 := dict_get team_elos team2 in
      let* r := calc_elo cfg e1 e2 mov (played1 vals) (played2 vals)
                  (rest1 vals) (rest2 vals) (neutral vals) in
      let '(_, _, elo_post1, elo_post2, _) := r in
      let team_elos := <[team1 := elo_post1]> team_elos in
      let team_elos := <[team2 := elo_post2]> team_elos in
      enrich_loop cfg values' team_elos (results ++ [r])
  end.

(** [enrich_elo_vec(df, cfg)] *)
Definition enrich_elo_vec (df : DataFrame) (cfg : config)
    : result (list elo_tuple) :=
  (* INIT TEAMS *)
  let* team_elos := init_teams (all_teams df) cfg ∅ in
  (* PREP RESULTS AND EXTRACT DF VALUES *)
  let results := [] in
  let values := df in
  (* ENRICH *)
  enrich_loop cfg values team_elos results.

(** A row of the padded [values] array of [enrich_elo]: the row of zeros put
    in front, or a row of the DataFrame. *)
Inductive padded_row : Type :=
| ZeroRow
| DataRow (vals : row).

(** What [itertools.accumulate] yields in [enrich_elo]: its first item is the
    first input row itself, the later ones are what [func] returned. *)
Inductive acc_item : Type :=
| Item (vals : padded_row)
| Res (r : elo_tuple).

Section Accumulate.
(** [itertools.accumulate(iterable, func)], drained by [list()].  [func]
    may mutate a state [S] it closes over, and may raise. *)
Context {X T S : Type}.
Variable first : X -> T.
Variable func : T -> X -> S -> result (T * S).

Fixpoint accumulate_from (total : T) (it : list X) (s : S)
    : result (list T * S) :=
  match it with
  | [] => Ok ([], s)
  | element :: it' =>
      let* ts := func total element s in
      let '(total', s') := ts in
      let* rest := accumulate_from total' it' s' in
      Ok (total' :: fst rest, snd rest)
  end.

Definition accumulate (it : list X) (s : S) : result (list T * S) :=
  match it with
  | [] => Ok ([], s)
  | x :: it' =>
      let total := first x in
      let* rest := accumulate_from total it' s in
      Ok (total :: fst rest, snd rest)
  end.
End Accumulate.

(** [stateful_enricher(team_elos, cfg)]: the closure [wrapped(_, vals)], with
    the dict it closes over passed in and out.  The row of zeros names the
    team [0.0], which is no key of [team_elos]. *)
Definition stateful_enricher (cfg : config) (_ : acc_item) (vals : padded_row)
    (team_elos : gmap string R) : result (acc_item * gmap string R) :=
  match vals with
  | ZeroRow => Raise KeyError
  | DataRow vals =>
      let team1 := fr_team1 vals in
      let team2 := fr_team2 vals in
      let mov := py_sub (score1 vals) (score2 vals) in
      let* e1 := dict_get team_elos team1 in
      let* e2 := dict_get team_elos team2 in
      let* r := calc_elo cfg e1 e2 mov (played1 vals) (played2 vals)
                  (rest1 vals) (rest2 vals) (neutral vals) in
      let '(_, _, elo_post1, elo_post2, _) := r in
      let team_elos := <[team1 := elo_post1]> team_elos in
      let team_elos := <[team2 := elo_post2]> team_elos in
      Ok (Res r, team_elos)
  end.

(** [numpy.array(items)] for the accumulated items: a table of five columns
    when every item is a result tuple. *)
Fixpoint numpy_array (items : list acc_item) : result (list elo_tuple) :=
  match items with
  | [] => Ok []
  | Res r :: items' =>
      let* rs := numpy_array items' in
      Ok (r :: rs)
  | Item _ :: _ => Raise ValueError
  end.

(** [enrich_elo(df, cfg)] *)
Definition enrich_elo (df : DataFrame) (cfg : config)
    : result (list elo_tuple) :=
  (* INIT TEAMS *)
  let* team_elos := init_teams (all_teams df) cfg ∅ in
  (* EXTRACT DATAFRAME VALUES *)
  let values := List.map DataRow df in
  (* The accumulator skips the first item: pad with a bogey first item *)
  let values := ZeroRow :: values in
  (* ENRICH *)
  let enricher := stateful_enricher cfg in
  let* results := accumulate Item enricher values team_elos in
  numpy_array (tl (fst results)).   (* remove bogey first item *)

(* ===================================================================== *)
(** ** optimizer.py: the fitness function *)
(* ===================================================================== *)

(** A fitness score: a float, or [-math.inf]. *)
Inductive fitness : Type :=
| NegInf
| Val (x : R).

(** [a > b] on scores. *)
Definition fitness_gt (a b : fitness) : bool :=
  match a, b with
  | NegInf, _ => false
  | Val _, NegInf => true
  | Val x, Val y => if Rlt_dec y x then true else false
  end.

(** The dict [model._best]: ['score'] is always there, ['r2'], ['ll'] and
    ['ac'] once a solution has been recorded. *)
Record scores : Type := mk_scores {
  score : fitness;
  r2 : option R;
  ll : option R;
  ac : option R
}.

(** [class ModelMeta]; [_genes] is the constant [Params]. *)
Record ModelMeta : Type := mk_model {
  _i : nat;
  _valid : nat;
  _best : scores;
  _best_config : option config;
  _data : DataFrame
}.

(** [ModelMeta(data)] *)
Definition ModelMeta_init (data : DataFrame) : ModelMeta :=
  {| _i := 0; _valid := 0;
     _best := mk_scores NegInf None None None;
     _best_config := None;
     _data := data |}.

Definition set_i (n : nat) (m : ModelMeta) : ModelMeta :=
  {| _i := n; _valid := _valid m; _best := _best m;
     _best_config := _best_config m; _data := _data m |}.

Definition set_valid (n : nat) (m : ModelMeta) : ModelMeta :=
  {| _i := _i m; _valid := n; _best := _best m;
     _best_config := _best_config m; _data := _data m |}.

Definition set_best (s : scores) (m : ModelMeta) : ModelMeta :=
  {| _i := _i m; _valid := _valid m; _best := s;
     _best_config := _best_config m; _data := _data m |}.

Definition set_best_config (c : option config) (m : ModelMeta) : ModelMeta :=
  {| _i := _i m; _valid := _valid m; _best := _best m;
     _best_config := c; _data := _data m |}.

(** [tuple_to_dict(tup, keys)]: [{k: tup[i] for i, k in enumerate(keys)}];
    the [i]-th key of [Params] is the member of index [i]. *)
Fixpoint tuple_to_dict_from (tup : config) (keys : list Params) (d : config)
    : result config :=
  match keys with
  | [] => Ok d
  | k :: keys' =>
      let* v := cfg_get tup k in
      tuple_to_dict_from tup keys' (cfg_set k v d)
  end.

Definition tuple_to_dict (tup : config) (keys : list Params) : result config :=
  tuple_to_dict_from tup keys empty_cfg.

(** [numpy.round]: to the nearest integer, halves to the even one. *)
Definition np_round (x : R) : R :=
  let f := Int_part x in
  let d := frac_part x in
  if Rlt_dec d (1 / 2) then IZR f
  else if Rlt_dec (1 / 2) d then IZR (f + 1)
  else if Z.even f then IZR f else IZR (f + 1).

(** [results[:, -1]]: the last column; the empty array [enrich_elo] returns
    for an empty DataFrame has one dimension only. *)
Definition last_column (results : list elo_tuple) : result (list R) :=
  match results with
  | [] => Raise IndexError
  | _ => Ok (List.map (fun r : elo_tuple => snd r) results)
  end.

Section Fitness.
(** [fitness_func_wrapper(forecaster)], and the three functions of
    [sklearn.metrics] it calls, which are not part of this repository. *)
Variable forecaster : DataFrame -> config -> result (list elo_tuple).
Variable r2_score : list R -> list R -> result R.
Variable log_loss : list R -> list R -> result R.
Variable accuracy_score : list R -> list R -> result R.

(** What [fitness_func] does once the forecaster has returned. *)
Definition record_score (model : ModelMeta) (solution : config)
    (results : list elo_tuple) : ModelMeta * result fitness :=
  let df := _data model in
  let model := set_valid (S (_valid model)) model in
  match last_column results with
  | Raise e => (model, Raise e)
  | Ok elo_prob1 =>
  match r2_score (List.map win1 df) elo_prob1 with
  | Raise e => (model, Raise e)
  | Ok r2v =>
      let score_ := Val r2v in
      let predicted := List.map np_round elo_prob1 in
      if fitness_gt score_ (score (_best model)) then
        match log_loss (List.map win1 df) elo_prob1 with
        | Raise e => (model, Raise e)
        | Ok llv =>
        match accuracy_score (List.map win1 df) predicted with
        | Raise e => (model, Raise e)
        | Ok acv =>
            let scores_ := mk_scores score_ (Some r2v) (Some llv) (Some acv) in
            let model := set_best scores_ model in
            match tuple_to_dict solution all_Params with
            | Raise e => (model, Raise e)
            | Ok config_ =>
                let model := set_best_config (Some config_) model in
                (model, Ok score_)
            end
        end
        end
      else (model, Ok score_)
  end
  end.

(** [fitness_func(model, solution)]: the model as it is left, and what the
    call returns or raises. *)
Definition fitness_func (model : ModelMeta) (solution : config)
    : ModelMeta * result fitness :=
  let df := _data model in
  let model := set_i (S (_i model)) model in
  match forecaster df solution with
  | Raise OverflowError => (model, Ok NegInf)
  | Raise e => (model, Raise e)
  | Ok results => record_score model solution results
  end.

(** A run: the model after each call of [fitness_func] on the solutions in
    turn; an exception that is not caught ends the run. *)
Fixpoint evaluations (model : ModelMeta) (solutions : list config)
    : list ModelMeta :=
  match solutions with
  | [] => []
  | solution :: solutions' =>
      let '(model', r) := fitness_func model solution in
      model' :: match r with
                | Ok _ => evaluations model' solutions'
                | Raise _ => []
                end
  end.
End Fitness.

(* ===================================================================== *)
(** ** optimizer.py: random search *)
(* ===================================================================== *)

(** [numpy.arange(start, stop, step)]: [ceil((stop - start) / step)] values
    [start + i * step]. *)
Definition numpy_arange (start_ stop_ step_ : Q) : list Q :=
  let n := Z.to_nat (Qceiling ((stop_ - start_) / step_)) in
  List.map (fun i => (start_ + inject_Z (Z.of_nat i) * step_)%Q) (seq 0 n).

(** [list(numpy.arange(space['low'], space['high'], space['step']))] *)
Definition gene_space (g : Params) : list Q :=
  numpy_arange (low (space g)) (high (space g)) (step (space g)).

(** The list [spaces] built by the first loop of [random_optimize]. *)
Definition spaces : list (Params * list Q) :=
  List.map (fun g => (g, gene_space g)) all_Params.

(** [random.choice(s)]; [draw] is the random number behind it. *)
Definition random_choice (s : list Q) (draw : nat) : result Q :=
  match s with
  | [] => Raise IndexError
  | _ => Ok (nth (draw mod length s) s 0%Q)
  end.

(** [{g: random.choice(s) for g, s in spaces}] *)
Fixpoint draw_config (sp : list (Params * list Q)) (draw : Params -> nat)
    (c : config) : result config :=
  match sp with
  | [] => Ok c
  | (g, s) :: sp' =>
      let* v := random_choice s (draw g) in
      draw_config sp' draw (cfg_set g (Q2R v) c)
  end.

Section RandomOptimize.
Variable r2_score : list R -> list R -> result R.
Variable log_loss : list R -> list R -> result R.
Variable accuracy_score : list R -> list R -> result R.

(** The [for _ in range(num_gens)] loop; [rng gen g] is the random number
    drawn for gene [g] in generation [gen]. *)
Fixpoint optimize_loop (rng : nat -> Params -> nat) (gens : list nat)
    (model : ModelMeta) : ModelMeta * result unit :=
  match gens with
  | [] => (model, Ok tt)
  | gen :: gens' =>
      match draw_config spaces (rng gen) empty_cfg with
      | Raise e => (model, Raise e)
      | Ok config_ =>
          let '(model', r) :=
            fitness_func enrich_elo r2_score log_loss accuracy_score
              model config_ in
          match r with
          | Raise e => (model', Raise e)
          | Ok _ => optimize_loop rng gens' model'
          end
      end
  end.

(** [random_optimize(df, num_gens)] *)
Definition random_optimize (df : DataFrame) (num_gens : nat)
    (rng : nat -> Params -> nat) : result (option config) :=
  let model := ModelMeta_init df in
  let '(model', r) := optimize_loop rng (seq 0 num_gens) model in
  let* _ := r in
  Ok (_best_config model').
End RandomOptimize.

(* ===================================================================== *)
(** ** Notions the statements below are phrased with *)
(* ===================================================================== *)

(** The rating difference from the winner's side: [diff] after a win of
    team 1, 0 after a tie, [-diff] after a win of team 2. *)
Definition winner_diff (diff mov : R) : R :=
  if Rlt_dec 0 mov then diff
  else if Req_dec_T mov 0 then 0
  else - diff.

(** [actual_win]: 1 when the margin is positive, else 0. *)
Definition actual_win (mov : R) : R :=
  if Rlt_dec 0 mov then 1 else 0.

(** The K-factor a call of [shift_elo_post] reads off the configuration. *)
Definition k_factor_of (cfg : config) (n1 n2 : Z) (k : R) : Prop :=
  match cfg k_rate with
  | None => cfg k_start = Some k
  | Some rate =>
      (IZR (n1 + n2) / 2 <= rate -> cfg k_start = Some k)
      /\ (rate < IZR (n1 + n2) / 2 -> cfg k_end = Some k)
  end.

(** The autocorrelation factor [ac]. *)
Definition ac_of (cfg : config) (diff mov : R) (a : R) : Prop :=
  match cfg ac_mod with
  | None => a = 1
  | Some md =>
      exists ml, cfg ac_mul = Some ml
                 /\ winner_diff diff mov * ml + md <> 0
                 /\ a = md / (winner_diff diff mov * ml + md)
  end.

(** The margin-of-victory multiplier [mov_mult], in either mode. *)
Definition mov_mult_of (cfg : config) (mov : R) (ac_mov_log : bool) (m : R)
    : Prop :=
  match cfg mov_mul with
  | None => m = 1
  | Some mm =>
      exists md, cfg mov_mod = Some md
                 /\ (ac_mov_log = true ->
                     m = mm * ln (Rmax (Rabs mov) 1) + md)
                 /\ (ac_mov_log = false -> py_pow (mov + md) mm = Ok m)
  end.

(** The expectation error. *)
Definition expectation_of (diff mov : R) (e : R) : Prop :=
  exists p, elo_probability diff = Ok p /\ e = actual_win mov - p.

(** [a <= b] on scores, with [-inf] below every float. *)
Definition fitness_le (a b : fitness) : Prop :=
  match a, b with
  | NegInf, _ => True
  | Val _, NegInf => False
  | Val x, Val y => x <= y
  end.

(** What one evaluation can do to the recorded best: leave it alone, or
    replace its score by a strictly greater one. *)
Definition best_kept_or_improved (model model' : ModelMeta)
    (r : result fitness) : Prop :=
  (_best model' = _best model /\ _best_config model' = _best_config model
   /\ forall sc, r = Ok sc -> fitness_gt sc (score (_best model)) = false)
  \/ (exists x, score (_best model') = Val x
                /\ fitness_gt (Val x) (score (_best model)) = true
                /\ forall sc, r = Ok sc -> sc = Val x).

(** The update of a match is zero-sum. *)
Definition zero_sum (r : elo_tuple) : Prop :=
  let '(elo_pre1, elo_pre2, elo_post1, elo_post2, _) := r in
  elo_post1 - elo_pre1 = - (elo_post2 - elo_pre2).

(* ===================================================================== *)
(** ** optimizer.py: [tuple_to_dict] on sequences *)
(* ===================================================================== *)

Section TupleToDict.
Context {K A : Type} `{Countable K}.

(** [tup[i]] for an index from [enumerate]. *)
Definition tuple_get (tup : list A) (i : nat) : result A :=
  match tup !! i with
  | Some x => Ok x
  | None => Raise IndexError
  end.

(** [{k: tup[i] for i, k in enumerate(keys)}], from the index [i] on. *)
Fixpoint dict_of_enumerate (tup : list A) (i : nat) (keys : list K)
    (d : gmap K A) : result (gmap K A) :=
  match keys with
  | [] => Ok d
  | k :: keys' =>
      let* v := tuple_get tup i in
      dict_of_enumerate tup (S i) keys' (<[k := v]> d)
  end.

(** [tuple_to_dict(tup, keys=None)] for a tuple [tup] and a list of keys:
    [keys = keys or list(keys)] keeps a non-empty list, copies an empty one,
    and calls [list(None)] when no keys are given. *)
Definition tuple_to_dict_seq (tup : list A) (keys : option (list K))
    : result (gmap K A) :=
  let* keys :=
    (match keys with
     | Some (k :: keys') => Ok (k :: keys')
     | Some [] => Ok []
     | None => Raise TypeError
     end) in
  dict_of_enumerate tup 0 keys ∅.
End TupleToDict.

(* ===================================================================== *)
(** ** More notions for the statements below *)
(* ===================================================================== *)

(** A configuration with only the plain K-factor among the keys that
    [shift_elo_post] reads. *)
Definition plain_k (cfg : config) (k : R) : Prop :=
  cfg k_start = Some k /\ cfg k_rate = None
  /\ cfg ac_mod = None /\ cfg mov_mul = None.

(** Every hyperparameter has a value, taken from its search range, the
    upper bound excluded. *)
Definition within_ranges (c : config) : Prop :=
  forall g : Params,
    exists v : Q, c g = Some (Q2R v)
                  /\ (low (space g) <= v)%Q /\ (v < high (space g))%Q.

(** The teams of a DataFrame. *)
Definition teams_of (df : DataFrame) : list string :=
  List.map fr_team1 df ++ List.map fr_team2 df.

(* ===================================================================== *)
(** ** Sample data *)
(* ===================================================================== *)

(** One match, A at home against B, won 1-0 by A, the first of the season
    for both. *)
Definition match_AB : row :=
  mk_row "A" "B" (Fin 1) (Fin 0) (Some 0%Z) (Some 0%Z) 0 0 false 1.

Definition cfg_plain : config :=
  mk_cfg [(start, 1000); (k_start, 10)].

(** A home-field modifier far outside its search range. *)
Definition cfg_overflow : config :=
  mk_cfg [(start, 1000); (k_start, 10); (hfa_mod, -200000)].

(** A match lost 0-1 at home after 40 days of rest, against a side that
    had none. *)
Definition match_rest : row :=
  mk_row "A" "B" (Fin 0) (Fin 1) (Some 0%Z) (Some 0%Z) 40 0 false 0.

(** Values within the search ranges for which the denominator of the
    autocorrelation term, [winner_diff * ac_mul + ac_mod], is zero on
    [match_rest]: the winner's rating difference is -1000. *)
Definition cfg_zero_ac : config :=
  mk_cfg [(start, 1000); (k_start, 10); (rest_mul, 25);
          (ac_mul, 4 / 1000); (ac_mod, 4)].



(** C's [pow(10, y)] and [log(x)] at the arguments the examples below
    need, as glibc returns them in binary64; not-a-number elsewhere.
    [pow(10, 0.5)] is 3.1622776601683795, [pow(10, -0.0025)] is
    0.9942600739529567, [pow(10, 0.0025)] is 1.0057730630017383,
    [pow(10, -25)] is 1e-25, [pow(10, 500)] overflows to infinity.  The
    examples run in logarithmic mode and never take a float power. *)
Definition libm_sample : Float64.libm :=
  Float64.mk_libm
    (fun _ y =>
       if (y =? 0)%float then 1%float
       else if (y =? 0.5)%float then 0x1.94c583ada5b53p+1%float
       else if (y =? -0x1.47ae147ae147bp-9)%float
            then 0x1.fd0fa80ab1673p-1%float
       else if (y =? 0x1.47ae147ae147bp-9)%float
            then 0x1.017a57ecca4b7p+0%float
       else if (y =? -25)%float then 0x1.ef2d0f5da7dd9p-84%float
       else if (y =? 500)%float then PrimFloat.infinity
       else PrimFloat.nan)
    (fun x => if (x =? 1)%float then 0%float else PrimFloat.nan)
    (fun _ _ => Raise ValueError).

(** A stand-in for a function of [sklearn.metrics]. *)
Definition metric_zero (y_true y_pred : list R) : result R := Ok 0.

(** A model whose best score so far is 0. *)
Definition model_tied : ModelMeta :=
  set_best (mk_scores (Val 0) (Some 0) (Some 0) (Some 0))
    (ModelMeta_init [match_AB]).

(* ===================================================================== *)
(** * Properties *)
(* ===================================================================== *)

(** ** The error monad *)

Lemma bind_Ok {A B : Type} (a : A) (k : A -> result B) :
  bind (Ok a) k = k a.
Proof. reflexivity. Qed.

Lemma bind_Raise {A B : Type} (e : exn) (k : A -> result B) :
  bind (Raise e) k = Raise e.
Proof. reflexivity. Qed.

Lemma bind_inv_Ok {A B : Type} (m : result A) (k : A -> result B) (b : B) :
  bind m k = Ok b -> exists a, m = Ok a /\ k a = Ok b.
Proof.
  destruct m as [a|e]; simpl; intros H; [exists a; auto | discriminate].
Qed.

Lemma cfg_get_Some (c : config) (g : Params) (v : R) :
  c g = Some v -> cfg_get c g = Ok v.
Proof. unfold cfg_get; intros ->; reflexivity. Qed.

Lemma cfg_get_None (c : config) (g : Params) :
  c g = None -> cfg_get c g = Raise KeyError.
Proof. unfold cfg_get; intros ->; reflexivity. Qed.

Lemma cfg_in_Some (c : config) (g : Params) (v : R) :
  c g = Some v -> cfg_in g c = true.
Proof. unfold cfg_in; intros ->; reflexivity. Qed.

Lemma cfg_in_None (c : config) (g : Params) :
  c g = None -> cfg_in g c = false.
Proof. unfold cfg_in; intros ->; reflexivity. Qed.

(** Settles the comparisons of reals a goal branches on. *)
Ltac settle_R :=
  repeat match goal with
  | |- context [Rlt_dec ?a ?b] => destruct (Rlt_dec a b); try lra
  | |- context [Rle_dec ?a ?b] => destruct (Rle_dec a b); try lra
  | |- context [Req_dec_T ?a ?b] => destruct (Req_dec_T a b); try lra
  end.

(** ** Pre-match differential *)

(** C8.  [calc_pre_diff] is the difference of the two ratings, plus
    [hfa_mod] when that key is present and the game is not neutral, plus
    [rest_mul * (rest1 - rest2)] when that key is present; on the ratings
    1000 and 1200 with 2 and 5 days of rest and
    [{hfa_mod: 10, rest_mul: 5}] it is -205, and -215 on neutral ground. *)
Theorem calc_pre_diff_spec :
  (forall (elo1 elo2 : R) (r1 r2 : Z) (is_neutral : bool) (cfg : config),
      calc_pre_diff elo1 elo2 r1 r2 is_neutral cfg =
      (elo1 - elo2)
      + (match cfg hfa_mod with
         | Some h => if is_neutral then 0 else h
         | None => 0
         end)
      + (match cfg rest_mul with
         | Some m => m * (IZR r1 - IZR r2)
         | None => 0
         end))
  /\ calc_pre_diff 1000 1200 2 5 false
       (mk_cfg [(hfa_mod, 10); (rest_mul, 5)]) = -205
  /\ calc_pre_diff 1000 1200 2 5 true
       (mk_cfg [(hfa_mod, 10); (rest_mul, 5)]) = -215.
Proof.
  split; [| split].
  - intros elo1 elo2 r1 r2 is_neutral cfg. unfold calc_pre_diff.
    rewrite minus_IZR.
    destruct is_neutral, (cfg hfa_mod), (cfg rest_mul); simpl; lra.
  - unfold calc_pre_diff; simpl; rewrite minus_IZR; lra.
  - unfold calc_pre_diff; simpl; rewrite minus_IZR; lra.
Qed.

(** ** Pre-match shift *)

Lemma shift_elo_pre_midseason (elo : R) (k : Z) (cfg : config) :
  (0 < k)%Z -> shift_elo_pre elo (Some k) cfg = Ok 0.
Proof.
  intros Hk. unfold shift_elo_pre; simpl.
  destruct (Z.ltb_spec 0 k); [reflexivity | lia].
Qed.

Lemma shift_elo_pre_revert (elo a r : R) (cfg : config) :
  cfg elo_avg = Some a -> cfg revert = Some r ->
  shift_elo_pre elo (Some 0%Z) cfg = Ok ((a * r + elo * (1 - r)) - elo).
Proof.
  intros Ha Hr. unfold shift_elo_pre; simpl.
  rewrite (cfg_in_Some _ _ _ Ha), (cfg_get_Some _ _ _ Ha),
    (cfg_get_Some _ _ _ Hr).
  reflexivity.
Qed.

Lemma shift_elo_pre_no_avg (elo : R) (cfg : config) :
  cfg elo_avg = None -> shift_elo_pre elo (Some 0%Z) cfg = Ok 0.
Proof.
  intros Ha. unfold shift_elo_pre; simpl.
  rewrite (cfg_in_None _ _ Ha); simpl.
  f_equal; lra.
Qed.

Lemma shift_elo_pre_no_revert (elo a : R) (cfg : config) :
  cfg elo_avg = Some a -> cfg revert = None ->
  shift_elo_pre elo (Some 0%Z) cfg = Raise KeyError.
Proof.
  intros Ha Hr. unfold shift_elo_pre; simpl.
  rewrite (cfg_in_Some _ _ _ Ha), (cfg_get_Some _ _ _ Ha),
    (cfg_get_None _ _ Hr).
  reflexivity.
Qed.

(** C2, as the code has it.  With a known number of games played:
    [shift_elo_pre] returns 0 when it is positive, whatever the
    configuration; when it is 0, the shift is
    [(elo_avg*revert + rating*(1-revert)) - rating] if both keys are
    present, 0 if [elo_avg] is absent, and a [KeyError] if [elo_avg] is
    present and [revert] is not. *)
Theorem shift_elo_pre_spec (elo : R) (cfg : config) :
  (forall k : Z, (0 < k)%Z -> shift_elo_pre elo (Some k) cfg = Ok 0)
  /\ (forall a r : R, cfg elo_avg = Some a -> cfg revert = Some r ->
        shift_elo_pre elo (Some 0%Z) cfg = Ok ((a * r + elo * (1 - r)) - elo))
  /\ (cfg elo_avg = None -> shift_elo_pre elo (Some 0%Z) cfg = Ok 0)
  /\ (forall a : R, cfg elo_avg = Some a -> cfg revert = None ->
        shift_elo_pre elo (Some 0%Z) cfg = Raise KeyError).
Proof.
  repeat split.
  - intros k Hk. now apply shift_elo_pre_midseason.
  - intros a r Ha Hr. now apply shift_elo_pre_revert.
  - intros Ha. now apply shift_elo_pre_no_avg.
  - intros a Ha Hr. now apply (shift_elo_pre_no_revert elo a).
Qed.

Lemma shift_elo_pre_spec_witness :
  shift_elo_pre 2000 (Some 1%Z) (mk_cfg [(elo_avg, 1000); (revert, / 2)])
    = Ok 0
  /\ shift_elo_pre 2000 (Some 0%Z) (mk_cfg [(elo_avg, 1000); (revert, / 2)])
    = Ok ((1000 * / 2 + 2000 * (1 - / 2)) - 2000)
  /\ shift_elo_pre 2000 (Some 0%Z) (mk_cfg [(revert, / 2)]) = Ok 0
  /\ shift_elo_pre 2000 (Some 0%Z) (mk_cfg [(elo_avg, 1000)])
    = Raise KeyError.
Proof.
  pose proof (shift_elo_pre_spec 2000
                (mk_cfg [(elo_avg, 1000); (revert, / 2)])) as (H1 & H2 & _).
  pose proof (shift_elo_pre_spec 2000 (mk_cfg [(revert, / 2)]))
    as (_ & _ & H3 & _).
  pose proof (shift_elo_pre_spec 2000 (mk_cfg [(elo_avg, 1000)]))
    as (_ & _ & _ & H4).
  split; [| split; [| split]].
  - apply H1; lia.
  - apply H2; reflexivity.
  - apply H3; reflexivity.
  - apply (H4 1000); reflexivity.
Defined.

(** C2 as stated fails: with zero games played and [elo_avg] present but
    [revert] missing, the call is not a no-op returning 0. *)
Lemma shift_elo_pre_missing_revert_raises :
  mk_cfg [(elo_avg, 1000)] revert = None
  /\ shift_elo_pre 2000 (Some 0%Z) (mk_cfg [(elo_avg, 1000)]) = Raise KeyError
  /\ shift_elo_pre 2000 (Some 0%Z) (mk_cfg [(elo_avg, 1000)]) <> Ok 0.
Proof.
  assert (H : shift_elo_pre 2000 (Some 0%Z) (mk_cfg [(elo_avg, 1000)])
              = Raise KeyError)
    by (apply (shift_elo_pre_no_revert _ 1000); reflexivity).
  split; [reflexivity | split; [exact H | rewrite H; discriminate]].
Qed.

Lemma shift_elo_pre_None (elo : R) (cfg : config) :
  shift_elo_pre elo None cfg = Raise TypeError.
Proof. reflexivity. Qed.

(** ** The range of a double and [math.pow] *)

Lemma float_max_IZR : float_max = IZR (2 ^ 1024 - 2 ^ 971).
Proof.
  unfold float_max.
  replace (2 ^ 1024 - 2 ^ 971)%Z
    with ((2 * 2 ^ Z.of_nat 52 - 1) * 2 ^ Z.of_nat 971)%Z
    by (vm_compute; reflexivity).
  rewrite mult_IZR, minus_IZR, mult_IZR, <- !pow_IZR.
  replace (2 ^ 1023) with (2 ^ 52 * 2 ^ 971)
    by (rewrite <- pow_add; reflexivity).
  assert (H : 2 ^ 52 <> 0) by (apply pow_nonzero; lra).
  revert H. generalize (2 ^ 52) (2 ^ 971). intros a b H.
  field; exact H.
Qed.

Lemma float_max_ge_1 : 1 <= float_max.
Proof.
  rewrite float_max_IZR. apply IZR_le. vm_compute. discriminate.
Qed.

Lemma Rpower10_nat (n : nat) : Rpower 10 (INR n) = IZR (10 ^ Z.of_nat n).
Proof.
  rewrite Rpower_pow by lra. apply pow_IZR.
Qed.

Lemma Rpower10_pos (y : R) : 0 < Rpower 10 y.
Proof. unfold Rpower. apply exp_pos. Qed.

Lemma Rpower10_le (x y : R) : x <= y -> Rpower 10 x <= Rpower 10 y.
Proof. intros H. apply Rle_Rpower; lra. Qed.

Lemma Rpower10_308_in_range : Rpower 10 308 <= float_max.
Proof.
  replace 308 with (INR 308) by (rewrite INR_IZR_INZ; reflexivity).
  rewrite Rpower10_nat, float_max_IZR.
  apply IZR_le. vm_compute. discriminate.
Qed.

Lemma Rpower10_500_overflows : float_max < Rpower 10 500.
Proof.
  replace 500 with (INR 500) by (rewrite INR_IZR_INZ; reflexivity).
  rewrite Rpower10_nat, float_max_IZR.
  apply IZR_lt. vm_compute. reflexivity.
Qed.

Lemma math_pow10_in_range (y : R) :
  Rpower 10 y <= float_max -> math_pow10 y = Ok (Rpower 10 y).
Proof. intros H. unfold math_pow10. settle_R. reflexivity. Qed.

Lemma math_pow10_overflow (y : R) :
  float_max < Rpower 10 y -> math_pow10 y = Raise OverflowError.
Proof. intros H. unfold math_pow10. settle_R. reflexivity. Qed.

(** ** Win probability *)

Lemma elo_probability_in_range (d : R) :
  Rpower 10 (- d / 400) <= float_max ->
  elo_probability d = Ok (1 / (Rpower 10 (- d / 400) + 1)).
Proof.
  intros H. unfold elo_probability.
  rewrite (math_pow10_in_range _ H); simpl.
  unfold py_div. pose proof (Rpower10_pos (- d / 400)).
  settle_R. reflexivity.
Qed.

Lemma elo_probability_overflow (d : R) :
  float_max < Rpower 10 (- d / 400) ->
  elo_probability d = Raise OverflowError.
Proof.
  intros H. unfold elo_probability.
  rewrite (math_pow10_overflow _ H). reflexivity.
Qed.





(** Every rating difference from -123200 up is in the range of [math.pow]. *)
Lemma diff_in_range (d : R) :
  -123200 <= d -> Rpower 10 (- d / 400) <= float_max.
Proof.
  intros H. apply Rle_trans with (Rpower 10 308).
  - apply Rpower10_le. lra.
  - apply Rpower10_308_in_range.
Qed.

(** At the rating difference -200000 the real-number embedding raises
    [OverflowError] instead of returning a probability. *)
Lemma elo_probability_overflows_at_minus_200000 :
  elo_probability (-200000) = Raise OverflowError
  /\ ~ (forall d : R,
          elo_probability d = Ok (1 / (Rpower 10 (- d / 400) + 1))).
Proof.
  assert (H : elo_probability (-200000) = Raise OverflowError).
  { apply elo_probability_overflow.
    replace (Ropp (-200000) / 400) with 500 by lra.
    exact Rpower10_500_overflows. }
  split; [exact H |].
  intros Hall. specialize (Hall (-200000)). rewrite H in Hall. discriminate.
Qed.

(** *** The win probability in double precision *)


Lemma double_elo_probability_returns (M : Float64.libm) (d x : float) :
  Float64.math_pow10 M (- d / 400)%float = Ok x ->
  (x + 1 =? 0)%float = false ->
  Float64.elo_probability M d = Ok (1 / (x + 1))%float.
Proof.
  intros Hx E. unfold Float64.elo_probability. rewrite Hx, bind_Ok.
  unfold Float64.py_div. rewrite E. reflexivity.
Qed.







Lemma elo_probability_0 : elo_probability 0 = Ok (1 / 2).
Proof.
  rewrite elo_probability_in_range by (apply diff_in_range; lra).
  replace (- 0 / 400) with 0 by lra.
  rewrite Rpower_O by lra. f_equal; lra.
Qed.

(** ** Post-match shift *)




Lemma shift_elo_post_plain (diff mov k : R) (n1 n2 : option Z) (cfg : config)
    (ac_mov_log : bool) :
  cfg k_start = Some k -> cfg k_rate = None ->
  cfg ac_mod = None -> cfg mov_mul = None ->
  Rpower 10 (- diff / 400) <= float_max ->
  shift_elo_post diff mov n1 n2 cfg ac_mov_log
  = Ok (k * (actual_win mov - 1 / (Rpower 10 (- diff / 400) + 1)) * 1 * 1).
Proof.
  intros Hk Hrate Hac Hmov Hrange. unfold shift_elo_post.
  rewrite (cfg_in_None _ _ Hac), (cfg_in_None _ _ Hmov),
    (cfg_in_None _ _ Hrate), (cfg_get_Some _ _ _ Hk),
    (elo_probability_in_range _ Hrange).
  reflexivity.
Qed.



(** *** The post-match shift in double precision *)






(** ** The full pipeline *)

Lemma calc_elo_inv (cfg : config) (e1 e2 : R) (mov : pyfloat)
    (n1 n2 : option Z) (r1 r2 : Z) (neu : bool) (p1 p2 q1 q2 pr : R) :
  calc_elo cfg e1 e2 mov n1 n2 r1 r2 neu = Ok (p1, p2, q1, q2, pr) ->
  exists s1 s2 shift,
    shift_elo_pre e1 n1 cfg = Ok s1 /\ shift_elo_pre e2 n2 cfg = Ok s2
    /\ p1 = e1 + s1 /\ p2 = e2 + s2
    /\ q1 = p1 + shift /\ q2 = p2 - shift
    /\ elo_probability (calc_pre_diff p1 p2 r1 r2 neu cfg) = Ok pr.
Proof.
  unfold calc_elo. intros H.
  apply bind_inv_Ok in H as (s1 & Hs1 & H).
  apply bind_inv_Ok in H as (s2 & Hs2 & H).
  apply bind_inv_Ok in H as (shift & _ & H).
  apply bind_inv_Ok in H as (pr' & Hpr & H).
  injection H as <- <- <- <- <-.
  exists s1, s2, shift. repeat split; assumption.
Qed.

Lemma calc_elo_zero_sum (cfg : config) (e1 e2 : R) (mov : pyfloat)
    (n1 n2 : option Z) (r1 r2 : Z) (neu : bool) (r : elo_tuple) :
  calc_elo cfg e1 e2 mov n1 n2 r1 r2 neu = Ok r -> zero_sum r.
Proof.
  destruct r as [[[[p1 p2] q1] q2] pr]. intros H.
  apply calc_elo_inv in H as (s1 & s2 & shift & _ & _ & _ & _ & -> & -> & _).
  unfold zero_sum. lra.
Qed.

(** ** The two replays *)

Lemma enrich_loop_acc (cfg : config) (values : list row) :
  forall (team_elos : gmap string R) (results : list elo_tuple),
    enrich_loop cfg values team_elos results
    = let* rs := enrich_loop cfg values team_elos [] in Ok (results ++ rs).
Proof.
  induction values as [| vals values IH]; intros team_elos results; simpl.
  - now rewrite app_nil_r.
  - destruct (dict_get team_elos (fr_team1 vals)) as [e1|]; [| reflexivity].
    destruct (dict_get team_elos (fr_team2 vals)) as [e2|]; [| reflexivity].
    simpl.
    destruct (calc_elo cfg e1 e2 _ _ _ _ _ _) as [r|]; [| reflexivity].
    simpl. destruct r as [[[[p1 p2] q1] q2] pr].
    rewrite IH. rewrite (IH _ [_]).
    destruct (enrich_loop cfg values _ []) as [rs|]; [| reflexivity].
    simpl. now rewrite <- app_assoc.
Qed.

Lemma accumulate_from_enrich (cfg : config) (values : list row) :
  forall (total : acc_item) (team_elos : gmap string R),
    (let* rest := accumulate_from (stateful_enricher cfg) total
                    (List.map DataRow values) team_elos in
     numpy_array (fst rest))
    = enrich_loop cfg values team_elos [].
Proof.
  induction values as [| vals values IH]; intros total team_elos; simpl.
  - reflexivity.
  - destruct (dict_get team_elos (fr_team1 vals)) as [e1|]; [| reflexivity].
    destruct (dict_get team_elos (fr_team2 vals)) as [e2|]; [| reflexivity].
    simpl.
    destruct (calc_elo cfg e1 e2 _ _ _ _ _ _) as [r|]; [| reflexivity].
    simpl. destruct r as [[[[p1 p2] q1] q2] pr]. simpl.
    rewrite enrich_loop_acc. rewrite <- IH with (total := Res (p1, p2, q1, q2, pr)).
    destruct (accumulate_from _ _ _ _) as [rest|]; [| reflexivity].
    simpl. destruct (numpy_array (fst rest)); reflexivity.
Qed.

Lemma enrich_elo_eq_vec (df : DataFrame) (cfg : config) :
  enrich_elo df cfg = enrich_elo_vec df cfg.
Proof.
  unfold enrich_elo, enrich_elo_vec.
  destruct (init_teams (all_teams df) cfg ∅) as [team_elos|]; [| reflexivity].
  simpl. rewrite <- accumulate_from_enrich with (total := Item ZeroRow).
  destruct (accumulate_from _ _ _ _) as [rest|]; reflexivity.
Qed.

Lemma enrich_loop_Forall (P : elo_tuple -> Prop) (cfg : config)
    (HP : forall e1 e2 mov n1 n2 r1 r2 neu r,
        calc_elo cfg e1 e2 mov n1 n2 r1 r2 neu = Ok r -> P r)
    (values : list row) :
  forall (team_elos : gmap string R) (results rs : list elo_tuple),
    Forall P results ->
    enrich_loop cfg values team_elos results = Ok rs -> Forall P rs.
Proof.
  induction values as [| vals values IH]; intros team_elos results rs Hres H;
    simpl in H.
  - injection H as <-. exact Hres.
  - apply bind_inv_Ok in H as (e1 & _ & H).
    apply bind_inv_Ok in H as (e2 & _ & H).
    apply bind_inv_Ok in H as (r & Hr & H).
    destruct r as [[[[p1 p2] q1] q2] pr].
    apply IH in H; [exact H |].
    apply Forall_app. split; [exact Hres |].
    constructor; [| constructor]. exact (HP _ _ _ _ _ _ _ _ _ Hr).
Qed.

Lemma enrich_loop_length (cfg : config) (values : list row) :
  forall (team_elos : gmap string R) (results rs : list elo_tuple),
    enrich_loop cfg values team_elos results = Ok rs ->
    length rs = (length results + length values)%nat.
Proof.
  induction values as [| vals values IH]; intros team_elos results rs H;
    simpl in H.
  - injection H as <-. simpl. lia.
  - apply bind_inv_Ok in H as (e1 & _ & H).
    apply bind_inv_Ok in H as (e2 & _ & H).
    apply bind_inv_Ok in H as (r & Hr & H).
    destruct r as [[[[p1 p2] q1] q2] pr].
    apply IH in H. rewrite H, length_app. simpl. lia.
Qed.

Lemma calc_elo_example :
  calc_elo (mk_cfg [(k_start, 25)]) 1250 1070 (Fin (-2))
    (Some 0%Z) (Some 0%Z) 0 0 false
  = Ok (1250, 1070,
        1250 - 25 * (1 / (Rpower 10 (Ropp 180 / 400) + 1)),
        1070 + 25 * (1 / (Rpower 10 (Ropp 180 / 400) + 1)),
        1 / (Rpower 10 (Ropp 180 / 400) + 1)).
Proof.
  set (cfg := mk_cfg [(k_start, 25)]).
  assert (Hd : calc_pre_diff (1250 + 0) (1070 + 0) 0 0 false cfg = 180)
    by (unfold calc_pre_diff; simpl; lra).
  assert (Hr : Rpower 10 (Ropp 180 / 400) <= float_max)
    by (apply diff_in_range; lra).
  unfold calc_elo. cbv zeta.
  rewrite !shift_elo_pre_no_avg by reflexivity.
  rewrite !bind_Ok, Hd.
  assert (Ht : truthy (Fin (-2)) && negb (math_isnan (Fin (-2))) = true).
  { unfold truthy. settle_R. reflexivity. }
  rewrite Ht.
  rewrite (shift_elo_post_plain 180 (-2) 25) by (reflexivity || exact Hr).
  rewrite bind_Ok, (elo_probability_in_range _ Hr), bind_Ok.
  unfold actual_win. settle_R.
  repeat f_equal; lra.
Qed.

(** *** The full pipeline in double precision *)

Lemma double_calc_elo_inv (M : Float64.libm) (cfg : Float64.config)
    (e1 e2 mov : float) (n1 n2 : option Z) (r1 r2 : Z) (neu : bool)
    (p1 p2 q1 q2 pr : float) :
  Float64.calc_elo M cfg e1 e2 mov n1 n2 r1 r2 neu = Ok (p1, p2, q1, q2, pr) ->
  exists pre_diff shift,
    Float64.calc_pre_diff p1 p2 r1 r2 neu cfg = Ok pre_diff
    /\ q1 = (p1 + shift)%float /\ q2 = (p2 - shift)%float
    /\ (if Float64.truthy mov && negb (PrimFloat.is_nan mov)
        then Float64.shift_elo_post M pre_diff mov n1 n2 cfg true
        else Ok 0%float) = Ok shift.
Proof.
  unfold Float64.calc_elo. intros H.
  apply bind_inv_Ok in H as (s1 & Hs1 & H).
  apply bind_inv_Ok in H as (s2 & Hs2 & H).
  apply bind_inv_Ok in H as (pre_diff & Hd & H).
  apply bind_inv_Ok in H as (shift & Hshift & H).
  apply bind_inv_Ok in H as (pr' & Hpr & H).
  injection H as <- <- <- <- <-.
  exists pre_diff, shift. repeat split; assumption.
Qed.

(** [calc_elo({k_start: 10}, 1000, 1200, 1)] in doubles: the ratings after
    the match are 1007.5974692664796 and 1192.4025307335205, the win
    probability is 0.2402530733520421. *)
Lemma double_calc_elo_example :
  Float64.calc_elo libm_sample (Float64.mk_cfg [(k_start, 10%float)])
    1000%float 1200%float 1%float (Some 0%Z) (Some 0%Z) 0 0 false
  = Ok (1000, 1200, 0x1.f7cc79df77f29p+9, 0x1.2a19c3104406cp+10,
        0x1.ec09cda67becap-3)%float.
Proof. vm_compute. reflexivity. Qed.

(** C3, as the code has it.  Whenever [calc_elo] returns, both post-match
    ratings are formed from one and the same post-match shift (0 for a
    margin that is zero or not a number, else the value of
    [shift_elo_post]): [post1] is the double sum [pre1' + shift] and
    [post2] the double difference [pre2' - shift].  Over the real numbers
    this makes the update zero-sum, [post1 - pre1' = -(post2 - pre2')], for
    every call that returns and for every result of a season replay, by
    either replay function. *)
Theorem calc_elo_zero_sum_spec :
  (forall (M : Float64.libm) (cfg : Float64.config) (e1 e2 mov : float)
          (n1 n2 : option Z) (r1 r2 : Z) (neu : bool)
          (p1 p2 q1 q2 pr : float),
      Float64.calc_elo M cfg e1 e2 mov n1 n2 r1 r2 neu
      = Ok (p1, p2, q1, q2, pr) ->
      exists pre_diff shift,
        Float64.calc_pre_diff p1 p2 r1 r2 neu cfg = Ok pre_diff
        /\ q1 = (p1 + shift)%float /\ q2 = (p2 - shift)%float
        /\ (if Float64.truthy mov && negb (PrimFloat.is_nan mov)
            then Float64.shift_elo_post M pre_diff mov n1 n2 cfg true
            else Ok 0%float) = Ok shift)
  /\ (forall (cfg : config) (e1 e2 : R) (mov : pyfloat) (n1 n2 : option Z)
             (r1 r2 : Z) (neu : bool) (p1 p2 q1 q2 pr : R),
        calc_elo cfg e1 e2 mov n1 n2 r1 r2 neu = Ok (p1, p2, q1, q2, pr) ->
        q1 - p1 = - (q2 - p2))
  /\ (forall (df : DataFrame) (cfg : config) (rs : list elo_tuple),
        enrich_elo df cfg = Ok rs -> Forall zero_sum rs)
  /\ (forall (df : DataFrame) (cfg : config) (rs : list elo_tuple),
        enrich_elo_vec df cfg = Ok rs -> Forall zero_sum rs).
Proof.
  assert (Hvec : forall df cfg rs,
             enrich_elo_vec df cfg = Ok rs -> Forall zero_sum rs).
  { intros df cfg rs H. unfold enrich_elo_vec in H.
    apply bind_inv_Ok in H as (team_elos & _ & H).
    apply (enrich_loop_Forall zero_sum cfg) with (3 := H).
    - intros. eapply calc_elo_zero_sum; eassumption.
    - constructor. }
  split; [exact double_calc_elo_inv | split; [| split]].
  - intros cfg e1 e2 mov n1 n2 r1 r2 neu p1 p2 q1 q2 pr H.
    apply calc_elo_zero_sum in H. exact H.
  - intros df cfg rs H. rewrite enrich_elo_eq_vec in H. now apply Hvec in H.
  - exact Hvec.
Qed.

Lemma calc_elo_zero_sum_spec_witness :
  (exists pre_diff shift,
      Float64.calc_pre_diff 1000%float 1200%float 0 0 false
        (Float64.mk_cfg [(k_start, 10%float)]) = Ok pre_diff
      /\ 0x1.f7cc79df77f29p+9%float = (1000 + shift)%float
      /\ 0x1.2a19c3104406cp+10%float = (1200 - shift)%float
      /\ (if Float64.truthy 1%float && negb (PrimFloat.is_nan 1%float)
          then Float64.shift_elo_post libm_sample pre_diff 1%float
                 (Some 0%Z) (Some 0%Z)
                 (Float64.mk_cfg [(k_start, 10%float)]) true
          else Ok 0%float) = Ok shift)
  /\ calc_elo (mk_cfg [(k_start, 25)]) 1250 1070 (Fin (-2))
       (Some 0%Z) (Some 0%Z) 0 0 false
     = Ok (1250, 1070,
           1250 - 25 * (1 / (Rpower 10 (Ropp 180 / 400) + 1)),
           1070 + 25 * (1 / (Rpower 10 (Ropp 180 / 400) + 1)),
           1 / (Rpower 10 (Ropp 180 / 400) + 1))
  /\ 1250 - 25 * (1 / (Rpower 10 (Ropp 180 / 400) + 1)) - 1250
     = - (1070 + 25 * (1 / (Rpower 10 (Ropp 180 / 400) + 1)) - 1070).
Proof.
  destruct calc_elo_zero_sum_spec as (D & H & _).
  split; [| split; [exact calc_elo_example |]].
  - exact (D _ _ _ _ _ _ _ _ _ _ _ _ _ _ _ double_calc_elo_example).
  - exact (H _ _ _ _ _ _ _ _ _ _ _ _ _ _ calc_elo_example).
Defined.

(** C3 as stated fails on the doubles the code computes with.
    [calc_elo({k_start: 10}, 1000, 1200, 1)] returns the post-match ratings
    1007.5974692664796 and 1192.4025307335205: team 1 has gained
    7.597469266479607 and team 2 has lost 7.597469266479493. *)
Lemma calc_elo_not_zero_sum_in_doubles :
  Float64.calc_elo libm_sample (Float64.mk_cfg [(k_start, 10%float)])
    1000%float 1200%float 1%float (Some 0%Z) (Some 0%Z) 0 0 false
  = Ok (1000, 1200, 0x1.f7cc79df77f29p+9, 0x1.2a19c3104406cp+10,
        0x1.ec09cda67becap-3)%float
  /\ (0x1.f7cc79df77f29p+9 - 1000)%float = 0x1.e63cefbbf948p+2%float
  /\ (- (0x1.2a19c3104406cp+10 - 1200))%float = 0x1.e63cefbbf94p+2%float
  /\ (0x1.f7cc79df77f29p+9 - 1000
      =? - (0x1.2a19c3104406cp+10 - 1200))%float = false.
Proof. repeat split; vm_compute; reflexivity. Qed.

Lemma calc_elo_skips_post (cfg : config) (e1 e2 : R) (mov : pyfloat)
    (n1 n2 : option Z) (r1 r2 : Z) (neu : bool) :
  mov = Fin 0 \/ mov = NaN ->
  calc_elo cfg e1 e2 mov n1 n2 r1 r2 neu
  = let* s1 := shift_elo_pre e1 n1 cfg in
    let* s2 := shift_elo_pre e2 n2 cfg in
    let* pr := elo_probability
                 (calc_pre_diff (e1 + s1) (e2 + s2) r1 r2 neu cfg) in
    Ok (e1 + s1, e2 + s2, e1 + s1 + 0, e2 + s2 - 0, pr).
Proof.
  intros Hmov. unfold calc_elo.
  assert (Ht : truthy mov && negb (math_isnan mov) = false).
  { destruct Hmov as [-> | ->]; [| reflexivity].
    unfold truthy. settle_R; reflexivity. }
  rewrite Ht. reflexivity.
Qed.

(** C4.  When the margin is 0 or not-a-number, [calc_elo] does not call
    [shift_elo_post]: the post-match shift is 0, and each post-match rating
    it returns is the adjusted pre-match rating of the same side. *)
Theorem calc_elo_no_result :
  (forall (cfg : config) (e1 e2 : R) (mov : pyfloat) (n1 n2 : option Z)
          (r1 r2 : Z) (neu : bool),
      mov = Fin 0 \/ mov = NaN ->
      calc_elo cfg e1 e2 mov n1 n2 r1 r2 neu
      = let* s1 := shift_elo_pre e1 n1 cfg in
        let* s2 := shift_elo_pre e2 n2 cfg in
        let* pr := elo_probability
                     (calc_pre_diff (e1 + s1) (e2 + s2) r1 r2 neu cfg) in
        Ok (e1 + s1, e2 + s2, e1 + s1 + 0, e2 + s2 - 0, pr))
  /\ (forall (cfg : config) (e1 e2 : R) (mov : pyfloat) (n1 n2 : option Z)
             (r1 r2 : Z) (neu : bool) (p1 p2 q1 q2 pr : R),
        mov = Fin 0 \/ mov = NaN ->
        calc_elo cfg e1 e2 mov n1 n2 r1 r2 neu = Ok (p1, p2, q1, q2, pr) ->
        q1 = p1 /\ q2 = p2).
Proof.
  split.
  - exact calc_elo_skips_post.
  - intros cfg e1 e2 mov n1 n2 r1 r2 neu p1 p2 q1 q2 pr Hmov H.
    rewrite (calc_elo_skips_post _ _ _ _ _ _ _ _ _ Hmov) in H.
    apply bind_inv_Ok in H as (s1 & _ & H).
    apply bind_inv_Ok in H as (s2 & _ & H).
    apply bind_inv_Ok in H as (pr' & _ & H).
    injection H as <- <- <- <- <-. split; lra.
Qed.

Lemma calc_elo_tie_example :
  calc_elo empty_cfg 1250 1070 (Fin 0) (Some 0%Z) (Some 0%Z) 0 0 false
  = Ok (1250 + 0, 1070 + 0, 1250 + 0 + 0, 1070 + 0 - 0,
        1 / (Rpower 10 (Ropp 180 / 400) + 1)).
Proof.
  rewrite calc_elo_skips_post by (left; reflexivity).
  rewrite !shift_elo_pre_no_avg by reflexivity.
  rewrite !bind_Ok.
  replace (calc_pre_diff (1250 + 0) (1070 + 0) 0 0 false empty_cfg) with 180
    by (unfold calc_pre_diff; simpl; lra).
  rewrite elo_probability_in_range by (apply diff_in_range; lra).
  reflexivity.
Qed.

Lemma calc_elo_no_result_witness :
  calc_elo empty_cfg 1250 1070 (Fin 0) (Some 0%Z) (Some 0%Z) 0 0 false
  = Ok (1250 + 0, 1070 + 0, 1250 + 0 + 0, 1070 + 0 - 0,
        1 / (Rpower 10 (Ropp 180 / 400) + 1))
  /\ 1250 + 0 + 0 = 1250 + 0 /\ 1070 + 0 - 0 = 1070 + 0.
Proof.
  split; [exact calc_elo_tie_example |].
  destruct calc_elo_no_result as (_ & H).
  exact (H _ _ _ _ _ _ _ _ _ _ _ _ _ _ (or_introl eq_refl)
           calc_elo_tie_example).
Defined.

(** C10.  For every DataFrame and every configuration, the replay by
    [itertools.accumulate] and the replay by a plain loop return the same:
    the same rows of five values in the same order, or the same exception;
    and as many rows as the DataFrame has. *)
Theorem enrich_elo_equiv :
  (forall (df : DataFrame) (cfg : config),
      enrich_elo df cfg = enrich_elo_vec df cfg)
  /\ (forall (df : DataFrame) (cfg : config) (rs : list elo_tuple),
        enrich_elo df cfg = Ok rs -> length rs = length df).
Proof.
  split.
  - exact enrich_elo_eq_vec.
  - intros df cfg rs H. rewrite enrich_elo_eq_vec in H.
    unfold enrich_elo_vec in H.
    apply bind_inv_Ok in H as (team_elos & _ & H).
    apply enrich_loop_length in H. exact H.
Qed.

(** ** The best score kept by the fitness function *)

Lemma fitness_le_refl (a : fitness) : fitness_le a a.
Proof. destruct a; simpl; [exact I | lra]. Qed.

Lemma fitness_le_trans (a b c : fitness) :
  fitness_le a b -> fitness_le b c -> fitness_le a c.
Proof. destruct a, b, c; simpl; try tauto; lra. Qed.

Lemma fitness_gt_le (a b : fitness) :
  fitness_gt a b = true -> fitness_le b a.
Proof.
  destruct a as [| x], b as [| y]; simpl; try discriminate; try tauto.
  destruct (Rlt_dec y x); [lra | discriminate].
Qed.

Section FitnessFacts.
Variable forecaster : DataFrame -> config -> result (list elo_tuple).
Variable r2_score : list R -> list R -> result R.
Variable log_loss : list R -> list R -> result R.
Variable accuracy_score : list R -> list R -> result R.

Lemma record_score_best (model : ModelMeta) (solution : config)
    (results : list elo_tuple) :
  best_kept_or_improved model
    (fst (record_score r2_score log_loss accuracy_score
            model solution results))
    (snd (record_score r2_score log_loss accuracy_score
            model solution results)).
Proof.
  unfold record_score, best_kept_or_improved.
  destruct (last_column results) as [elo_prob1 | e];
    [| left; simpl; repeat split; discriminate].
  destruct (r2_score _ elo_prob1) as [r2v | e];
    [| left; simpl; repeat split; discriminate].
  simpl (score (_best (set_valid _ _))).
  destruct (fitness_gt (Val r2v) (score (_best model))) eqn:Hgt.
  - destruct (log_loss _ _) as [llv | e];
      [| left; simpl; repeat split; discriminate].
    destruct (accuracy_score _ _) as [acv | e];
      [| left; simpl; repeat split; discriminate].
    right. exists r2v.
    destruct (tuple_to_dict solution all_Params) as [c | e]; simpl;
      (split; [reflexivity | split; [exact Hgt |]]).
    + intros sc [= <-]. reflexivity.
    + discriminate.
  - left. simpl. repeat split. intros sc [= <-]. exact Hgt.
Qed.

Lemma fitness_func_best (model : ModelMeta) (solution : config) :
  best_kept_or_improved model
    (fst (fitness_func forecaster r2_score log_loss accuracy_score
            model solution))
    (snd (fitness_func forecaster r2_score log_loss accuracy_score
            model solution)).
Proof.
  unfold fitness_func.
  destruct (forecaster (_data model) solution) as [results | e].
  - pose proof (record_score_best (set_i (S (_i model)) model) solution
                  results) as H.
    exact H.
  - left. destruct e; simpl; repeat split; try discriminate.
    intros sc [= <-]. reflexivity.
Qed.

Lemma fitness_func_monotone (model : ModelMeta) (solution : config) :
  fitness_le (score (_best model))
    (score (_best (fst (fitness_func forecaster r2_score log_loss
                          accuracy_score model solution)))).
Proof.
  destruct (fitness_func_best model solution)
    as [(-> & _) | (x & -> & Hgt & _)].
  - apply fitness_le_refl.
  - now apply fitness_gt_le.
Qed.

Lemma evaluations_above (solutions : list config) :
  forall model : ModelMeta,
    Forall (fun m => fitness_le (score (_best model)) (score (_best m)))
      (evaluations forecaster r2_score log_loss accuracy_score
         model solutions).
Proof.
  induction solutions as [| solution solutions IH]; intros model; simpl.
  - constructor.
  - pose proof (fitness_func_monotone model solution) as Hm.
    destruct (fitness_func _ _ _ _ model solution) as [model' r].
    simpl in Hm. constructor; [exact Hm |].
    destruct r; [| constructor].
    eapply List.Forall_impl; [| apply IH].
    intros m Hle. simpl in Hle. eapply fitness_le_trans; eassumption.
Qed.

Lemma evaluations_sorted (solutions : list config) :
  forall model : ModelMeta,
    StronglySorted fitness_le
      (List.map (fun m => score (_best m))
         (model :: evaluations forecaster r2_score log_loss accuracy_score
                     model solutions)).
Proof.
  induction solutions as [| solution solutions IH]; intros model; simpl.
  - constructor; constructor.
  - pose proof (evaluations_above (solution :: solutions) model) as Ha.
    simpl in Ha.
    destruct (fitness_func _ _ _ _ model solution) as [model' r].
    constructor.
    + destruct r.
      * apply (IH model').
      * simpl. constructor; constructor.
    + rewrite Forall_map. exact Ha.
Qed.
End FitnessFacts.

Lemma optimize_loop_monotone (r2_score log_loss accuracy_score :
    list R -> list R -> result R) (rng : nat -> Params -> nat)
    (gens : list nat) :
  forall model : ModelMeta,
    fitness_le (score (_best model))
      (score (_best (fst (optimize_loop r2_score log_loss accuracy_score
                            rng gens model)))).
Proof.
  induction gens as [| gen gens IH]; intros model; cbn [optimize_loop].
  - apply fitness_le_refl.
  - destruct (draw_config spaces (rng gen) empty_cfg) as [c | e];
      [| apply fitness_le_refl].
    pose proof (fitness_func_monotone enrich_elo r2_score log_loss
                  accuracy_score model c) as Hm.
    destruct (fitness_func _ _ _ _ model c) as [model' r]. simpl in Hm.
    destruct r; [| exact Hm].
    eapply fitness_le_trans; [exact Hm | apply IH].
Qed.

(** ** A replay of one match *)

Lemma enrich_elo_single (vals : row) (cfg : config) (s : R) :
  fr_team1 vals <> fr_team2 vals -> cfg start = Some s ->
  enrich_elo [vals] cfg
  = let* r := calc_elo cfg s s (py_sub (score1 vals) (score2 vals))
                (played1 vals) (played2 vals) (rest1 vals) (rest2 vals)
                (neutral vals) in
    Ok [r].
Proof.
  intros Hne Hs. unfold enrich_elo, all_teams. cbn [List.map app unique_from].
  destruct (in_dec string_dec (fr_team1 vals) []) as [[] |].
  destruct (in_dec string_dec (fr_team2 vals) [fr_team1 vals])
    as [[Heq | []] |]; [congruence |].
  cbn [init_teams]. rewrite (cfg_get_Some _ _ _ Hs), !bind_Ok.
  cbn [accumulate accumulate_from stateful_enricher].
  unfold dict_get.
  rewrite lookup_insert_ne by (intros Heq; apply Hne; now rewrite Heq).
  rewrite !lookup_insert_eq, !bind_Ok.
  destruct (calc_elo cfg s s _ _ _ _ _ _) as [r | e]; [| reflexivity].
  destruct r as [[[[p1 p2] q1] q2] pr]. reflexivity.
Qed.

Lemma calc_elo_plain_example :
  calc_elo cfg_plain 1000 1000 (Fin (1 - 0)) (Some 0%Z) (Some 0%Z) 0 0 false
  = Ok (1000, 1000, 1005, 995, 1 / 2).
Proof.
  assert (Hd : calc_pre_diff (1000 + 0) (1000 + 0) 0 0 false cfg_plain = 0)
    by (unfold calc_pre_diff; simpl; lra).
  unfold calc_elo. cbv zeta.
  rewrite !shift_elo_pre_no_avg by reflexivity.
  rewrite !bind_Ok, Hd.
  assert (Ht : truthy (Fin (1 - 0)) && negb (math_isnan (Fin (1 - 0))) = true).
  { unfold truthy. settle_R. reflexivity. }
  rewrite Ht.
  rewrite (shift_elo_post_plain 0 (1 - 0) 10)
    by (reflexivity || (apply diff_in_range; lra)).
  rewrite bind_Ok, elo_probability_0, bind_Ok.
  replace (- 0 / 400) with 0 by lra. rewrite Rpower_O by lra.
  unfold actual_win. settle_R.
  repeat f_equal; lra.
Qed.

Lemma calc_elo_overflow_example :
  calc_elo cfg_overflow 1000 1000 (Fin (1 - 0)) (Some 0%Z) (Some 0%Z) 0 0
    false
  = Raise OverflowError.
Proof.
  assert (Hd : calc_pre_diff (1000 + 0) (1000 + 0) 0 0 false cfg_overflow
               = -200000)
    by (unfold calc_pre_diff; simpl; lra).
  unfold calc_elo. cbv zeta.
  rewrite !shift_elo_pre_no_avg by reflexivity.
  rewrite !bind_Ok, Hd.
  assert (Ht : truthy (Fin (1 - 0)) && negb (math_isnan (Fin (1 - 0))) = true).
  { unfold truthy. settle_R. reflexivity. }
  rewrite Ht. unfold shift_elo_post.
  rewrite (cfg_in_None cfg_overflow ac_mod), (cfg_in_None cfg_overflow mov_mul)
    by reflexivity.
  rewrite !bind_Ok.
  rewrite elo_probability_overflow; [reflexivity |].
  replace (Ropp (-200000) / 400) with 500 by lra.
  exact Rpower10_500_overflows.
Qed.

Lemma calc_elo_zero_ac_example :
  calc_elo cfg_zero_ac 1000 1000 (Fin (0 - 1)) (Some 0%Z) (Some 0%Z) 40 0
    false
  = Raise ZeroDivisionError.
Proof.
  assert (Hd : calc_pre_diff (1000 + 0) (1000 + 0) 40 0 false cfg_zero_ac
               = 1000)
    by (unfold calc_pre_diff; simpl; rewrite minus_IZR; lra).
  unfold calc_elo. cbv zeta.
  rewrite !shift_elo_pre_no_avg by reflexivity.
  rewrite !bind_Ok, Hd.
  assert (Ht : truthy (Fin (0 - 1)) && negb (math_isnan (Fin (0 - 1))) = true).
  { unfold truthy. settle_R. reflexivity. }
  rewrite Ht. unfold shift_elo_post.
  rewrite (cfg_in_Some cfg_zero_ac ac_mod 4) by reflexivity.
  rewrite (cfg_get_Some cfg_zero_ac ac_mod 4),
    (cfg_get_Some cfg_zero_ac ac_mul (4 / 1000)) by reflexivity.
  rewrite !bind_Ok. unfold py_div. settle_R. reflexivity.
Qed.

Lemma enrich_elo_plain_example :
  enrich_elo [match_AB] cfg_plain = Ok [(1000, 1000, 1005, 995, 1 / 2)].
Proof.
  rewrite (enrich_elo_single match_AB cfg_plain 1000)
    by (discriminate || reflexivity).
  cbn [match_AB score1 score2 played1 played2 rest1 rest2 neutral py_sub].
  rewrite calc_elo_plain_example. reflexivity.
Qed.

Lemma enrich_elo_overflow_example :
  enrich_elo [match_AB] cfg_overflow = Raise OverflowError.
Proof.
  rewrite (enrich_elo_single match_AB cfg_overflow 1000)
    by (discriminate || reflexivity).
  cbn [match_AB score1 score2 played1 played2 rest1 rest2 neutral py_sub].
  rewrite calc_elo_overflow_example. reflexivity.
Qed.

Lemma enrich_elo_zero_ac_example :
  enrich_elo [match_rest] cfg_zero_ac = Raise ZeroDivisionError.
Proof.
  rewrite (enrich_elo_single match_rest cfg_zero_ac 1000)
    by (discriminate || reflexivity).
  cbn [match_rest score1 score2 played1 played2 rest1 rest2 neutral py_sub].
  rewrite calc_elo_zero_ac_example. reflexivity.
Qed.

(** ** The fitness function on the sample data *)

Lemma fitness_func_tie_example :
  fitness_func enrich_elo metric_zero metric_zero metric_zero
    model_tied cfg_plain
  = (set_valid 1 (set_i 1 model_tied), Ok (Val 0)).
Proof.
  unfold fitness_func.
  change (_data model_tied) with [match_AB].
  rewrite enrich_elo_plain_example.
  unfold record_score. cbn [last_column metric_zero].
  cbn [set_valid set_i _best _i _valid model_tied set_best score fitness_gt].
  settle_R. reflexivity.
Qed.

Lemma fitness_func_overflow_example :
  fitness_func enrich_elo metric_zero metric_zero metric_zero
    (ModelMeta_init [match_AB]) cfg_overflow
  = (set_i 1 (ModelMeta_init [match_AB]), Ok NegInf).
Proof.
  unfold fitness_func.
  change (_data (ModelMeta_init [match_AB])) with [match_AB].
  rewrite enrich_elo_overflow_example. reflexivity.
Qed.

(** C7.  One evaluation either leaves the recorded best solution as it is
    or replaces it by one whose score is strictly greater; an evaluation
    whose score is not strictly greater than the best (a tie too) replaces
    nothing, one whose score is strictly greater is recorded.  Hence the
    best score is non-decreasing along the evaluations of any run, and
    along the loop of [random_optimize]. *)
Theorem best_score_monotone :
  (forall forecaster r2_score log_loss accuracy_score model solution,
      best_kept_or_improved model
        (fst (fitness_func forecaster r2_score log_loss accuracy_score
                model solution))
        (snd (fitness_func forecaster r2_score log_loss accuracy_score
                model solution)))
  /\ (forall forecaster r2_score log_loss accuracy_score model solution
             model' sc,
        fitness_func forecaster r2_score log_loss accuracy_score
          model solution = (model', Ok sc) ->
        fitness_gt sc (score (_best model)) = false ->
        _best model' = _best model
        /\ _best_config model' = _best_config model)
  /\ (forall forecaster r2_score log_loss accuracy_score model solution
             model' sc,
        fitness_func forecaster r2_score log_loss accuracy_score
          model solution = (model', Ok sc) ->
        fitness_gt sc (score (_best model)) = true ->
        score (_best model') = sc)
  /\ (forall forecaster r2_score log_loss accuracy_score model solutions,
        StronglySorted fitness_le
          (List.map (fun m => score (_best m))
             (model :: evaluations forecaster r2_score log_loss
                         accuracy_score model solutions)))
  /\ (forall r2_score log_loss accuracy_score rng gens model,
        fitness_le (score (_best model))
          (score (_best (fst (optimize_loop r2_score log_loss
                                accuracy_score rng gens model))))).
Proof.
  split; [| split; [| split; [| split]]].
  - exact fitness_func_best.
  - intros f r2 ll acc model solution model' sc H Hgt.
    pose proof (fitness_func_best f r2 ll acc model solution) as Hb.
    rewrite H in Hb. simpl in Hb.
    destruct Hb as [(Hb & Hc & _) | (x & _ & Hx & Hsc)]; [auto |].
    rewrite (Hsc sc eq_refl) in Hgt. congruence.
  - intros f r2 ll acc model solution model' sc H Hgt.
    pose proof (fitness_func_best f r2 ll acc model solution) as Hb.
    rewrite H in Hb. simpl in Hb.
    destruct Hb as [(_ & _ & Hle) | (x & Hs & _ & Hsc)].
    + rewrite (Hle sc eq_refl) in Hgt. discriminate.
    + rewrite Hs. symmetry. now apply Hsc.
  - intros f r2 ll acc model solutions. apply evaluations_sorted.
  - intros. apply optimize_loop_monotone.
Qed.

Lemma best_score_monotone_witness :
  fitness_func enrich_elo metric_zero metric_zero metric_zero
    model_tied cfg_plain
  = (set_valid 1 (set_i 1 model_tied), Ok (Val 0))
  /\ fitness_gt (Val 0) (score (_best model_tied)) = false
  /\ _best (set_valid 1 (set_i 1 model_tied)) = _best model_tied
  /\ _best_config (set_valid 1 (set_i 1 model_tied))
     = _best_config model_tied.
Proof.
  assert (Hgt : fitness_gt (Val 0) (score (_best model_tied)) = false).
  { simpl. settle_R; reflexivity. }
  destruct best_score_monotone as (_ & H & _).
  split; [exact fitness_func_tie_example |].
  split; [exact Hgt |].
  exact (H _ _ _ _ _ _ _ _ fitness_func_tie_example Hgt).
Defined.

(** ** Exceptions of the replay in the fitness function *)

Lemma fitness_func_raise (forecaster : DataFrame -> config ->
    result (list elo_tuple)) (r2_score log_loss accuracy_score :
    list R -> list R -> result R) (model : ModelMeta) (solution : config)
    (e : exn) :
  forecaster (_data model) solution = Raise e ->
  fitness_func forecaster r2_score log_loss accuracy_score model solution
  = (set_i (S (_i model)) model,
     match e with OverflowError => Ok NegInf | _ => Raise e end).
Proof.
  intros H. unfold fitness_func. rewrite H. destruct e; reflexivity.
Qed.

(** C1, as the code has it.  When the replay raises [OverflowError], the
    fitness function returns negative infinity instead of propagating it:
    the evaluation counter moves and nothing else.  Any other exception of
    the replay, the [ZeroDivisionError] of the autocorrelation term among
    them, is not caught and propagates. *)
Theorem fitness_func_catches_overflow :
  (forall forecaster r2_score log_loss accuracy_score model solution,
      forecaster (_data model) solution = Raise OverflowError ->
      fitness_func forecaster r2_score log_loss accuracy_score model solution
      = (set_i (S (_i model)) model, Ok NegInf))
  /\ (forall forecaster r2_score log_loss accuracy_score model solution e,
        e <> OverflowError ->
        forecaster (_data model) solution = Raise e ->
        fitness_func forecaster r2_score log_loss accuracy_score
          model solution
        = (set_i (S (_i model)) model, Raise e)).
Proof.
  split.
  - intros f r2 ll acc model solution H.
    now rewrite (fitness_func_raise f r2 ll acc model solution _ H).
  - intros f r2 ll acc model solution e He H.
    rewrite (fitness_func_raise f r2 ll acc model solution _ H).
    destruct e; congruence.
Qed.

Lemma fitness_func_catches_overflow_witness :
  enrich_elo (_data (ModelMeta_init [match_AB])) cfg_overflow
  = Raise OverflowError
  /\ fitness_func enrich_elo metric_zero metric_zero metric_zero
       (ModelMeta_init [match_AB]) cfg_overflow
     = (set_i 1 (ModelMeta_init [match_AB]), Ok NegInf)
  /\ fitness_func enrich_elo metric_zero metric_zero metric_zero
       (ModelMeta_init [match_rest]) cfg_zero_ac
     = (set_i 1 (ModelMeta_init [match_rest]), Raise ZeroDivisionError).
Proof.
  destruct fitness_func_catches_overflow as (H1 & H2).
  split; [exact enrich_elo_overflow_example |].
  split.
  - exact (H1 enrich_elo metric_zero metric_zero metric_zero
             (ModelMeta_init [match_AB]) cfg_overflow
             enrich_elo_overflow_example).
  - apply (H2 enrich_elo metric_zero metric_zero metric_zero
             (ModelMeta_init [match_rest]) cfg_zero_ac ZeroDivisionError).
    + discriminate.
    + exact enrich_elo_zero_ac_example.
Defined.

(** C1 as stated fails: on [match_rest] with [cfg_zero_ac] the denominator
    [winner_diff * ac_mul + ac_mod] is zero, the replay raises
    [ZeroDivisionError], and the fitness function propagates it instead of
    returning negative infinity. *)
Lemma fitness_func_propagates_zero_division :
  winner_diff 1000 (0 - 1) * (4 / 1000) + 4 = 0
  /\ enrich_elo [match_rest] cfg_zero_ac = Raise ZeroDivisionError
  /\ snd (fitness_func enrich_elo metric_zero metric_zero metric_zero
            (ModelMeta_init [match_rest]) cfg_zero_ac)
     = Raise ZeroDivisionError
  /\ snd (fitness_func enrich_elo metric_zero metric_zero metric_zero
            (ModelMeta_init [match_rest]) cfg_zero_ac)
     <> Ok NegInf.
Proof.
  assert (H : snd (fitness_func enrich_elo metric_zero metric_zero
                     metric_zero (ModelMeta_init [match_rest]) cfg_zero_ac)
              = Raise ZeroDivisionError).
  { rewrite (fitness_func_raise _ _ _ _ _ _ ZeroDivisionError)
      by exact enrich_elo_zero_ac_example.
    reflexivity. }
  split; [unfold winner_diff; settle_R |].
  split; [exact enrich_elo_zero_ac_example |].
  split; [exact H | rewrite H; discriminate].
Qed.

(** ** The values random search proposes *)

Lemma numpy_arange_bounds (lo hi st : Q) :
  (0 < st)%Q ->
  Forall (fun v => (lo <= v)%Q /\ (v < hi)%Q) (numpy_arange lo hi st).
Proof.
  intros Hst. apply List.Forall_forall. intros v Hv.
  unfold numpy_arange in Hv.
  apply in_map_iff in Hv as (i & <- & Hi). apply in_seq in Hi.
  set (q := ((hi - lo) / st)%Q) in *.
  assert (Hq : (q * st == hi - lo)%Q).
  { unfold q. rewrite Qmult_comm. apply Qmult_div_r.
    intros H0. rewrite H0 in Hst. discriminate. }
  assert (Hi0 : (0 <= inject_Z (Z.of_nat i))%Q)
    by (rewrite <- (Zle_Qle 0); lia).
  assert (Hiq : (inject_Z (Z.of_nat i) < q)%Q).
  { apply Qle_lt_trans with (inject_Z (Qceiling q - 1)).
    - rewrite <- Zle_Qle. lia.
    - apply Qceiling_lt. }
  pose proof (Qmult_le_0_compat _ _ Hi0 (Qlt_le_weak _ _ Hst)) as Hlow.
  pose proof (Qmult_lt_compat_r _ _ _ Hst Hiq) as Hup.
  split; lra.
Qed.

Lemma step_positive (g : Params) : (0 < step (space g))%Q.
Proof. destruct g; reflexivity. Qed.

Lemma gene_space_bounds (g : Params) :
  Forall (fun v => (low (space g) <= v)%Q /\ (v <= high (space g))%Q)
    (gene_space g).
Proof.
  eapply List.Forall_impl;
    [| apply numpy_arange_bounds, step_positive].
  intros v [Hlo Hhi]. split; [exact Hlo | apply Qlt_le_weak, Hhi].
Qed.

Lemma gene_space_nonempty (g : Params) : gene_space g <> [].
Proof. destruct g; vm_compute; discriminate. Qed.

Lemma random_choice_In (s : list Q) (draw : nat) (v : Q) :
  random_choice s draw = Ok v -> In v s.
Proof.
  intros H.
  assert (Hs : length s <> 0%nat) by (destruct s; discriminate).
  assert (H' : Ok (nth (draw mod length s) s 0%Q) = Ok v)
    by (destruct s; [discriminate | exact H]).
  injection H' as <-.
  apply nth_In. apply Nat.mod_upper_bound. exact Hs.
Qed.

Lemma draw_config_lookup (draw : Params -> nat)
    (sp : list (Params * list Q)) :
  forall c c' : config,
    draw_config sp draw c = Ok c' ->
    forall g : Params,
      (exists s v, In (g, s) sp /\ In v s /\ c' g = Some (Q2R v))
      \/ (~ In g (List.map fst sp) /\ c' g = c g).
Proof.
  induction sp as [| [g0 s0] sp IH]; intros c c' H g.
  - injection H as <-. right. split; [intros [] | reflexivity].
  - cbn [draw_config] in H.
    apply bind_inv_Ok in H as (v0 & Hv0 & H).
    destruct (IH _ _ H g) as [(s & v & Hin & Hv & Hc) | (Hnin & Hc)].
    + left. exists s, v. split; [right; exact Hin | auto].
    + unfold cfg_set in Hc.
      destruct (Params_eq_dec g0 g) as [-> | Hne].
      * left. exists s0, v0.
        split; [left; reflexivity |].
        split; [exact (random_choice_In _ _ _ Hv0) | exact Hc].
      * right. split; [| exact Hc].
        intros [Heq | Hin]; [exact (Hne Heq) | exact (Hnin Hin)].
Qed.

Lemma draw_config_returns (draw : Params -> nat)
    (sp : list (Params * list Q)) :
  Forall (fun gs => snd gs <> []) sp ->
  forall c : config, exists c', draw_config sp draw c = Ok c'.
Proof.
  induction 1 as [| [g s] sp Hs _ IH]; intros c; cbn [draw_config].
  - exists c. reflexivity.
  - destruct s as [| x s]; [now destruct Hs |].
    cbn [random_choice]. rewrite bind_Ok. apply IH.
Qed.

Lemma spaces_nonempty : Forall (fun gs => snd gs <> []) spaces.
Proof.
  unfold spaces. apply List.Forall_forall. intros [g s] Hin.
  apply in_map_iff in Hin as (g' & [= <- <-] & _).
  apply gene_space_nonempty.
Qed.

Lemma all_Params_complete (g : Params) : In g all_Params.
Proof. destruct g; simpl; tauto. Qed.

(** C9.  Every element of the candidate list built from a hyperparameter's
    range descriptor lies in its interval [[low, high]]; each configuration
    random search draws gives every hyperparameter one of these values, and
    a draw always succeeds. *)
Theorem proposals_within_bounds :
  (forall g : Params,
      Forall (fun v => (low (space g) <= v)%Q /\ (v <= high (space g))%Q)
        (gene_space g))
  /\ (forall (draw : Params -> nat) (c : config),
        draw_config spaces draw empty_cfg = Ok c ->
        forall g : Params,
        exists v, c g = Some (Q2R v)
                  /\ (low (space g) <= v)%Q /\ (v <= high (space g))%Q)
  /\ (forall draw : Params -> nat,
        exists c, draw_config spaces draw empty_cfg = Ok c).
Proof.
  split; [exact gene_space_bounds | split].
  - intros draw c H g.
    destruct (draw_config_lookup draw spaces _ _ H g)
      as [(s & v & Hin & Hv & Hc) | (Hnin & _)].
    + exists v. split; [exact Hc |].
      unfold spaces in Hin. apply in_map_iff in Hin as (g' & [= <- <-] & _).
      pose proof (gene_space_bounds g') as Hb.
      rewrite List.Forall_forall in Hb. exact (Hb v Hv).
    + exfalso. apply Hnin. unfold spaces. rewrite List.map_map. simpl.
      exact (all_Params_complete g).
  - intros draw. apply draw_config_returns, spaces_nonempty.
Qed.

Lemma proposals_within_bounds_witness :
  exists c, draw_config spaces (fun _ => 0%nat) empty_cfg = Ok c
            /\ exists v, c revert = Some (Q2R v)
                         /\ (low (space revert) <= v)%Q
                         /\ (v <= high (space revert))%Q.
Proof.
  destruct proposals_within_bounds as (_ & H2 & H3).
  destruct (H3 (fun _ => 0%nat)) as [c Hc].
  exists c. split; [exact Hc | exact (H2 _ c Hc revert)].
Defined.

Lemma enrich_elo_equiv_witness :
  enrich_elo [match_AB] cfg_plain = Ok [(1000, 1000, 1005, 995, 1 / 2)]
  /\ enrich_elo_vec [match_AB] cfg_plain
     = Ok [(1000, 1000, 1005, 995, 1 / 2)]
  /\ length [(1000, 1000, 1005, 995, 1 / 2)] = length [match_AB].
Proof.
  destruct enrich_elo_equiv as (H1 & H2).
  split; [exact enrich_elo_plain_example |].
  split.
  - rewrite <- H1. exact enrich_elo_plain_example.
  - exact (H2 _ _ _ enrich_elo_plain_example).
Defined.

(* ===================================================================== *)
(** * Further properties of the code *)
(* ===================================================================== *)

(** ** Post-match shift: the plain K-factor *)

Lemma shift_elo_post_plain_returns (d mov k : R) (n1 n2 : option Z)
    (cfg : config) (ac_mov_log : bool) :
  plain_k cfg k -> -123200 <= d ->
  exists s, shift_elo_post d mov n1 n2 cfg ac_mov_log = Ok s.
Proof.
  intros (Hk & Hrate & Hac & Hmov) Hd. eexists.
  apply (shift_elo_post_plain d mov k); try assumption.
  now apply diff_in_range.
Qed.

(** ** The required key *)

Lemma shift_elo_post_needs_k_start (d mov : R) (n1 n2 : option Z)
    (cfg : config) (ac_mov_log : bool) (s : R) :
  shift_elo_post d mov n1 n2 cfg ac_mov_log = Ok s ->
  exists k, cfg k_start = Some k.
Proof.
  unfold shift_elo_post. intros H.
  apply bind_inv_Ok in H as (a & _ & H).
  apply bind_inv_Ok in H as (m & _ & H).
  apply bind_inv_Ok in H as (p & _ & H).
  apply bind_inv_Ok in H as (k0 & Hk0 & _).
  unfold cfg_get in Hk0. destruct (cfg k_start) as [k |]; [| discriminate].
  now exists k.
Qed.

Lemma calc_elo_inv_post (cfg : config) (e1 e2 : R) (mov : pyfloat)
    (n1 n2 : option Z) (r1 r2 : Z) (neu : bool) (p1 p2 q1 q2 pr : R) :
  calc_elo cfg e1 e2 mov n1 n2 r1 r2 neu = Ok (p1, p2, q1, q2, pr) ->
  exists shift,
    q1 = p1 + shift /\ q2 = p2 - shift
    /\ match mov with
       | Fin m =>
           if Req_dec_T m 0 then shift = 0
           else shift_elo_post (calc_pre_diff p1 p2 r1 r2 neu cfg) m n1 n2
                  cfg true = Ok shift
       | NaN => shift = 0
       end.
Proof.
  unfold calc_elo. intros H.
  apply bind_inv_Ok in H as (s1 & Hs1 & H).
  apply bind_inv_Ok in H as (s2 & Hs2 & H).
  apply bind_inv_Ok in H as (shift & Hshift & H).
  apply bind_inv_Ok in H as (pr' & Hpr & H).
  injection H as <- <- <- <- <-.
  exists shift. split; [reflexivity | split; [reflexivity |]].
  destruct mov as [m |]; simpl in Hshift.
  - destruct (Req_dec_T m 0); simpl in Hshift.
    + now injection Hshift as <-.
    + exact Hshift.
  - now injection Hshift as <-.
Qed.

(** X5.  [k_start] is a required key: [shift_elo_post] never returns a
    value from a configuration without it, and neither does [calc_elo] on
    a match with a margin that is a number other than 0. *)
Theorem k_start_required :
  (forall (d mov : R) (n1 n2 : option Z) (cfg : config)
          (ac_mov_log : bool) (s : R),
      shift_elo_post d mov n1 n2 cfg ac_mov_log = Ok s ->
      exists k, cfg k_start = Some k)
  /\ (forall (cfg : config) (e1 e2 m : R) (n1 n2 : option Z) (r1 r2 : Z)
             (neu : bool) (r : elo_tuple),
        m <> 0 ->
        calc_elo cfg e1 e2 (Fin m) n1 n2 r1 r2 neu = Ok r ->
        exists k, cfg k_start = Some k).
Proof.
  split; [exact shift_elo_post_needs_k_start |].
  intros cfg e1 e2 m n1 n2 r1 r2 neu [[[[p1 p2] q1] q2] pr] Hm H.
  apply calc_elo_inv_post in H as (shift & _ & _ & H).
  destruct (Req_dec_T m 0); [contradiction |].
  now apply shift_elo_post_needs_k_start in H.
Qed.

Lemma k_start_required_witness :
  exists k, mk_cfg [(k_start, 25)] k_start = Some k.
Proof.
  destruct k_start_required as (_ & H).
  apply (H _ 1250 1070 (-2) (Some 0%Z) (Some 0%Z) 0%Z 0%Z false _
           ltac:(lra) calc_elo_example).
Defined.

(** ** The full pipeline: the plain K-factor *)

Lemma shift_elo_pre_absent (elo : R) (k : Z) (cfg : config) :
  cfg elo_avg = None -> shift_elo_pre elo (Some k) cfg = Ok 0.
Proof.
  intros Ha. unfold shift_elo_pre. simpl.
  destruct (0 <? k)%Z; simpl; [reflexivity |].
  rewrite (cfg_in_None _ _ Ha). simpl. f_equal; lra.
Qed.

Lemma calc_elo_plain_returns (cfg : config) (e1 e2 k : R) (mov : pyfloat)
    (k1 k2 r1 r2 : Z) (neu : bool) :
  plain_k cfg k -> cfg elo_avg = None ->
  -123200 <= calc_pre_diff (e1 + 0) (e2 + 0) r1 r2 neu cfg ->
  exists r, calc_elo cfg e1 e2 mov (Some k1) (Some k2) r1 r2 neu = Ok r.
Proof.
  intros Hp Ha Hd. unfold calc_elo. cbv zeta.
  rewrite !(shift_elo_pre_absent _ _ _ Ha), !bind_Ok.
  rewrite (elo_probability_in_range _ (diff_in_range _ Hd)).
  destruct (truthy mov && negb (math_isnan mov)).
  - destruct mov as [m |].
    + destruct (shift_elo_post_plain_returns _ m k (Some k1) (Some k2) cfg
                  true Hp Hd) as [s ->].
      rewrite !bind_Ok. eexists; reflexivity.
    + rewrite !bind_Ok. eexists; reflexivity.
  - rewrite !bind_Ok. eexists; reflexivity.
Qed.

(** ** [tuple_to_dict] on a configuration *)

Lemma tuple_to_dict_from_Ok (tup : config) (keys : list Params) :
  forall d d' : config,
    tuple_to_dict_from tup keys d = Ok d' ->
    forall g : Params,
      (In g keys -> d' g = tup g /\ tup g <> None)
      /\ (~ In g keys -> d' g = d g).
Proof.
  induction keys as [| k keys IH]; intros d d' H g; simpl in H.
  - injection H as <-. split; [intros [] | reflexivity].
  - apply bind_inv_Ok in H as (v & Hv & H).
    unfold cfg_get in Hv. destruct (tup k) as [v' |] eqn:Hk; [| discriminate].
    injection Hv as ->.
    destruct (IH _ _ H g) as [Hin Hnin].
    destruct (in_dec Params_eq_dec g keys) as [Hg | Hg].
    + split; [intros _; apply Hin, Hg | intros Hn; exfalso; apply Hn].
      right; exact Hg.
    + rewrite (Hnin Hg). unfold cfg_set.
      destruct (Params_eq_dec k g) as [-> | Hne].
      * split; [intros _; rewrite Hk; split; [reflexivity | discriminate] |].
        intros Hn. exfalso. apply Hn. left; reflexivity.
      * split; [intros [Heq | Hin']; [contradiction | contradiction] |].
        reflexivity.
Qed.

Lemma tuple_to_dict_from_missing (tup : config) (keys : list Params)
    (g : Params) :
  In g keys -> tup g = None ->
  forall d : config, tuple_to_dict_from tup keys d = Raise KeyError.
Proof.
  induction keys as [| k keys IH]; intros Hin Hg d; [destruct Hin |].
  simpl. unfold cfg_get. destruct (tup k) as [v |] eqn:Hk; [| reflexivity].
  simpl. destruct Hin as [-> | Hin]; [congruence |]. now apply IH.
Qed.

Lemma tuple_to_dict_from_returns (tup : config) (keys : list Params) :
  (forall g, In g keys -> tup g <> None) ->
  forall d : config, exists d', tuple_to_dict_from tup keys d = Ok d'.
Proof.
  induction keys as [| k keys IH]; intros Hall d; simpl.
  - now exists d.
  - unfold cfg_get. destruct (tup k) as [v |] eqn:Hk.
    + simpl. apply IH. intros g Hg. apply Hall. right; exact Hg.
    + exfalso. apply (Hall k); [left; reflexivity | exact Hk].
Qed.

(** X9.  [tuple_to_dict(solution, Params)] returns exactly when the
    solution has a value for each of the twelve hyperparameters, and the
    dict it returns then has the same value under every key; if any
    hyperparameter is missing it raises [KeyError]. *)
Theorem tuple_to_dict_copies :
  (forall (tup d : config),
      tuple_to_dict tup all_Params = Ok d ->
      forall g, d g = tup g /\ tup g <> None)
  /\ (forall (tup : config) (g : Params),
        tup g = None -> tuple_to_dict tup all_Params = Raise KeyError)
  /\ (forall tup : config,
        (forall g, tup g <> None) ->
        exists d, tuple_to_dict tup all_Params = Ok d).
Proof.
  split; [| split].
  - intros tup d H g.
    apply (tuple_to_dict_from_Ok tup all_Params _ _ H g).
    apply all_Params_complete.
  - intros tup g Hg.
    apply (tuple_to_dict_from_missing tup all_Params g);
      [apply all_Params_complete | exact Hg].
  - intros tup Hall. apply tuple_to_dict_from_returns.
    intros g _. apply Hall.
Qed.

Lemma tuple_to_dict_copies_witness :
  (exists d, tuple_to_dict (fun _ => Some 1) all_Params = Ok d
             /\ d k_start = Some 1)
  /\ tuple_to_dict cfg_plain all_Params = Raise KeyError.
Proof.
  destruct tuple_to_dict_copies as (H1 & H2 & H3).
  split.
  - destruct (H3 (fun _ => Some 1)) as [d Hd]; [discriminate |].
    exists d. split; [exact Hd | apply (H1 _ d Hd k_start)].
  - apply (H2 cfg_plain revert). reflexivity.
Defined.

(** ** The replay: edges, first match, prefixes *)

Lemma unique_from_In (l : list string) :
  forall (seen : list string) (x : string),
    In x (unique_from seen l) <-> In x l /\ ~ In x seen.
Proof.
  induction l as [| y l IH]; intros seen x; simpl.
  - tauto.
  - destruct (in_dec string_dec y seen) as [Hy | Hy].
    + rewrite IH. split.
      * intros [Hl Hs]. tauto.
      * intros [[-> | Hl] Hs]; [contradiction | tauto].
    + simpl. rewrite IH. simpl. split.
      * intros [-> | [Hl Hs]]; [tauto |]. split; [tauto |].
        intros Hx. apply Hs. right; exact Hx.
      * intros [[-> | Hl] Hs]; [tauto |].
        destruct (string_dec y x) as [-> | Hne]; [tauto |].
        right. split; [exact Hl |]. intros [Heq | Hx]; contradiction.
Qed.

Lemma all_teams_In (df : DataFrame) (t : string) :
  In t (all_teams df) <-> In t (teams_of df).
Proof. unfold all_teams, teams_of. rewrite unique_from_In. simpl. tauto. Qed.

Lemma all_teams_nonempty (vals : row) (df : DataFrame) :
  all_teams (vals :: df) <> [].
Proof.
  intros H. assert (Hin : In (fr_team1 vals) (all_teams (vals :: df))).
  { apply all_teams_In. left; reflexivity. }
  rewrite H in Hin. destruct Hin.
Qed.

Lemma init_teams_no_start (ts : list string) (cfg : config)
    (m : gmap string R) :
  ts <> [] -> cfg start = None -> init_teams ts cfg m = Raise KeyError.
Proof.
  destruct ts as [| t ts]; [congruence |]. intros _ Hs. simpl.
  now rewrite (cfg_get_None _ _ Hs).
Qed.

Lemma init_teams_lookup (cfg : config) (s : R) (ts : list string) :
  cfg start = Some s ->
  forall m : gmap string R,
    exists m', init_teams ts cfg m = Ok m'
               /\ forall t, (In t ts -> m' !! t = Some s)
                            /\ (~ In t ts -> m' !! t = m !! t).
Proof.
  intros Hs. induction ts as [| t0 ts IH]; intros m; simpl.
  - exists m. split; [reflexivity |]. intros t. tauto.
  - rewrite (cfg_get_Some _ _ _ Hs), bind_Ok.
    destruct (IH (<[t0 := s]> m)) as (m' & Hm' & Hl).
    exists m'. split; [exact Hm' |]. intros t.
    destruct (Hl t) as [Hin Hnin].
    destruct (in_dec string_dec t ts) as [Ht | Ht].
    + split; [intros _; exact (Hin Ht) | intros Hn; exfalso; apply Hn].
      right; exact Ht.
    + rewrite (Hnin Ht).
      destruct (string_dec t0 t) as [-> | Hne].
      * rewrite lookup_insert_eq.
        split; [reflexivity | intros Hn; exfalso; apply Hn].
        left; reflexivity.
      * rewrite lookup_insert_ne by exact Hne.
        split; [intros [Heq | Hin']; contradiction | reflexivity].
Qed.

(** X10.  The replay of an empty DataFrame returns no rows whatever the
    configuration is, even an empty one; the replay of a DataFrame with at
    least one match and a configuration without [start] raises
    [KeyError]. *)
Theorem replay_edges :
  (forall cfg : config,
      enrich_elo [] cfg = Ok [] /\ enrich_elo_vec [] cfg = Ok [])
  /\ (forall (df : DataFrame) (cfg : config),
        df <> [] -> cfg start = None ->
        enrich_elo df cfg = Raise KeyError
        /\ enrich_elo_vec df cfg = Raise KeyError).
Proof.
  split.
  - intros cfg. split; reflexivity.
  - intros df cfg Hdf Hs.
    assert (Hvec : enrich_elo_vec df cfg = Raise KeyError).
    { unfold enrich_elo_vec. destruct df as [| vals df]; [congruence |].
      rewrite init_teams_no_start;
        [reflexivity | apply all_teams_nonempty | exact Hs]. }
    split; [rewrite enrich_elo_eq_vec |]; exact Hvec.
Qed.

Lemma replay_edges_witness :
  enrich_elo [match_AB] empty_cfg = Raise KeyError
  /\ enrich_elo_vec [match_AB] empty_cfg = Raise KeyError.
Proof.
  destruct replay_edges as (_ & H).
  apply (H [match_AB] empty_cfg); [discriminate | reflexivity].
Defined.

(** X11.  The first match of a replay is rated from the [start] rating on
    both sides: when the replay returns, the configuration has [start] and
    the first row of the result is what [calc_elo] returns on that
    rating twice. *)
Theorem first_match_from_start (vals : row) (df : DataFrame) (cfg : config)
    (rs : list elo_tuple) :
  enrich_elo (vals :: df) cfg = Ok rs ->
  exists s r rs',
    cfg start = Some s
    /\ calc_elo cfg s s (py_sub (score1 vals) (score2 vals))
         (played1 vals) (played2 vals) (rest1 vals) (rest2 vals)
         (neutral vals) = Ok r
    /\ rs = r :: rs'.
Proof.
  intros H. rewrite enrich_elo_eq_vec in H. unfold enrich_elo_vec in H.
  destruct (cfg start) as [s |] eqn:Hs;
    [| rewrite init_teams_no_start in H;
       [discriminate | apply all_teams_nonempty | exact Hs]].
  destruct (init_teams_lookup cfg s (all_teams (vals :: df)) Hs ∅)
    as (m & Hm & Hl).
  rewrite Hm, bind_Ok in H. cbn [enrich_loop] in H. unfold dict_get in H.
  assert (E1 : m !! fr_team1 vals = Some s).
  { apply Hl, all_teams_In. left; reflexivity. }
  assert (E2 : m !! fr_team2 vals = Some s).
  { apply Hl, all_teams_In. unfold teams_of. apply in_or_app.
    right. left; reflexivity. }
  rewrite E1, E2, !bind_Ok in H.
  apply bind_inv_Ok in H as (r & Hr & H).
  destruct r as [[[[p1 p2] q1] q2] pr].
  rewrite enrich_loop_acc in H.
  apply bind_inv_Ok in H as (rs' & _ & H). injection H as <-.
  exists s, (p1, p2, q1, q2, pr), rs'. auto.
Qed.

Lemma first_match_from_start_witness :
  exists s r rs',
    cfg_plain start = Some s
    /\ calc_elo cfg_plain s s (py_sub (score1 match_AB) (score2 match_AB))
         (played1 match_AB) (played2 match_AB) (rest1 match_AB)
         (rest2 match_AB) (neutral match_AB) = Ok r
    /\ [(1000, 1000, 1005, 995, 1 / 2)] = r :: rs'.
Proof.
  exact (first_match_from_start match_AB [] cfg_plain _
           enrich_elo_plain_example).
Defined.

Lemma teams_of_cons (vals : row) (df : DataFrame) (t : string) :
  In t (teams_of (vals :: df))
  <-> t = fr_team1 vals \/ t = fr_team2 vals \/ In t (teams_of df).
Proof.
  unfold teams_of. simpl. rewrite !in_app_iff. simpl.
  intuition congruence.
Qed.

Lemma teams_of_app (df1 df2 : DataFrame) (t : string) :
  In t (teams_of df1) -> In t (teams_of (df1 ++ df2)).
Proof.
  unfold teams_of. rewrite !List.map_app, !in_app_iff. tauto.
Qed.

Lemma enrich_loop_agree (cfg : config) (values : list row) :
  forall (m1 m2 : gmap string R) (results : list elo_tuple),
    (forall t, In t (teams_of values) -> m1 !! t = m2 !! t) ->
    enrich_loop cfg values m1 results = enrich_loop cfg values m2 results.
Proof.
  induction values as [| vals values IH]; intros m1 m2 results Hag;
    [reflexivity |].
  cbn [enrich_loop]. unfold dict_get.
  rewrite <- (Hag (fr_team1 vals)), <- (Hag (fr_team2 vals))
    by (apply teams_of_cons; tauto).
  destruct (m1 !! fr_team1 vals) as [e1 |]; [| reflexivity].
  destruct (m1 !! fr_team2 vals) as [e2 |]; [| reflexivity].
  rewrite !bind_Ok.
  destruct (calc_elo cfg e1 e2 _ _ _ _ _ _) as [r | e]; [| reflexivity].
  rewrite bind_Ok. destruct r as [[[[p1 p2] q1] q2] pr].
  apply IH. intros t Ht. rewrite !lookup_insert.
  repeat case_decide; try reflexivity.
  apply Hag, teams_of_cons. tauto.
Qed.

Lemma enrich_loop_prefix (cfg : config) (v1 v2 : list row) :
  forall (m : gmap string R) (results rs : list elo_tuple),
    enrich_loop cfg (v1 ++ v2) m results = Ok rs ->
    enrich_loop cfg v1 m results
    = Ok (firstn (length results + length v1) rs).
Proof.
  induction v1 as [| vals v1 IH]; intros m results rs H.
  - simpl in *. rewrite enrich_loop_acc in H.
    apply bind_inv_Ok in H as (rs2 & _ & H). injection H as <-.
    rewrite Nat.add_0_r, firstn_app, Nat.sub_diag, firstn_all.
    simpl. now rewrite app_nil_r.
  - cbn [app enrich_loop] in *.
    destruct (dict_get m (fr_team1 vals)) as [e1 |]; [| discriminate].
    destruct (dict_get m (fr_team2 vals)) as [e2 |]; [| discriminate].
    rewrite !bind_Ok in *.
    destruct (calc_elo cfg e1 e2 _ _ _ _ _ _) as [r | e]; [| discriminate].
    rewrite !bind_Ok in *. destruct r as [[[[p1 p2] q1] q2] pr].
    apply IH in H. rewrite H. rewrite length_app. simpl.
    do 2 f_equal. lia.
Qed.

(** X12.  Later matches do not reach back: the replay of the first matches
    of a DataFrame alone returns the first rows of the replay of the whole
    DataFrame. *)
Theorem replay_prefix (df1 df2 : DataFrame) (cfg : config)
    (rs : list elo_tuple) :
  enrich_elo (df1 ++ df2) cfg = Ok rs ->
  enrich_elo df1 cfg = Ok (firstn (length df1) rs).
Proof.
  intros H. rewrite enrich_elo_eq_vec in *.
  destruct df1 as [| vals df1]; [reflexivity |].
  unfold enrich_elo_vec in *.
  destruct (cfg start) as [s |] eqn:Hs;
    [| rewrite init_teams_no_start in H;
       [discriminate | apply all_teams_nonempty | exact Hs]].
  destruct (init_teams_lookup cfg s (all_teams ((vals :: df1) ++ df2)) Hs ∅)
    as (m & Hm & Hl).
  destruct (init_teams_lookup cfg s (all_teams (vals :: df1)) Hs ∅)
    as (m1 & Hm1 & Hl1).
  rewrite Hm, bind_Ok in H. rewrite Hm1, bind_Ok.
  apply enrich_loop_prefix in H. etransitivity; [| exact H].
  apply enrich_loop_agree. intros t Ht.
  assert (E1 : m1 !! t = Some s) by (apply Hl1, all_teams_In, Ht).
  assert (E : m !! t = Some s)
    by (apply Hl, all_teams_In, teams_of_app, Ht).
  congruence.
Qed.

(** The replay of two matches between the same sides: the second match
    starts from the ratings the first one left. *)
Lemma enrich_elo_pair_example :
  exists r2,
    enrich_elo [match_AB; match_rest] cfg_plain
    = Ok [(1000, 1000, 1005, 995, 1 / 2); r2].
Proof.
  destruct (calc_elo_plain_returns cfg_plain 1005 995 10 (Fin (0 - 1))
              0 0 40 0 false) as [r2 Hr2].
  { repeat split; reflexivity. }
  { reflexivity. }
  { unfold calc_pre_diff; simpl; lra. }
  exists r2. rewrite enrich_elo_eq_vec. unfold enrich_elo_vec.
  assert (Ht : all_teams [match_AB; match_rest] = ["A"; "B"]%string)
    by reflexivity.
  rewrite Ht. cbn [init_teams].
  rewrite (cfg_get_Some cfg_plain start 1000 eq_refl), !bind_Ok.
  cbn [enrich_loop match_AB match_rest fr_team1 fr_team2 score1 score2
         played1 played2 rest1 rest2 neutral py_sub].
  unfold dict_get.
  rewrite (lookup_insert_ne _ "B"%string "A"%string) by discriminate.
  rewrite !lookup_insert_eq, !bind_Ok.
  rewrite calc_elo_plain_example, bind_Ok.
  cbn [enrich_loop match_AB match_rest fr_team1 fr_team2 score1 score2
         played1 played2 rest1 rest2 neutral py_sub].
  rewrite (lookup_insert_ne _ "B"%string "A"%string) by discriminate.
  rewrite !lookup_insert_eq, !bind_Ok.
  rewrite Hr2, bind_Ok.
  destruct r2 as [[[[p1 p2] q1] q2] pr]. reflexivity.
Qed.

Lemma replay_prefix_witness :
  exists r2,
    enrich_elo ([match_AB] ++ [match_rest]) cfg_plain
    = Ok [(1000, 1000, 1005, 995, 1 / 2); r2]
    /\ enrich_elo [match_AB] cfg_plain
       = Ok (firstn (length [match_AB])
               [(1000, 1000, 1005, 995, 1 / 2); r2]).
Proof.
  destruct enrich_elo_pair_example as [r2 Hr2].
  exists r2. split; [exact Hr2 |].
  exact (replay_prefix [match_AB] [match_rest] cfg_plain _ Hr2).
Defined.

(** ** The counters of the fitness function *)

Lemma record_score_counters (r2_score log_loss accuracy_score :
    list R -> list R -> result R) (model : ModelMeta) (solution : config)
    (results : list elo_tuple) :
  _i (fst (record_score r2_score log_loss accuracy_score
             model solution results)) = _i model
  /\ _valid (fst (record_score r2_score log_loss accuracy_score
                    model solution results)) = S (_valid model)
  /\ _data (fst (record_score r2_score log_loss accuracy_score
                   model solution results)) = _data model.
Proof.
  unfold record_score.
  destruct (last_column results); [| simpl; auto].
  destruct (r2_score _ _); [| simpl; auto].
  destruct (fitness_gt _ _); [| simpl; auto].
  destruct (log_loss _ _); [| simpl; auto].
  destruct (accuracy_score _ _); [| simpl; auto].
  destruct (tuple_to_dict _ _); simpl; auto.
Qed.

Lemma fitness_func_counters (forecaster : DataFrame -> config ->
    result (list elo_tuple)) (r2_score log_loss accuracy_score :
    list R -> list R -> result R) (model : ModelMeta) (solution : config) :
  _i (fst (fitness_func forecaster r2_score log_loss accuracy_score
             model solution)) = S (_i model)
  /\ _data (fst (fitness_func forecaster r2_score log_loss accuracy_score
                   model solution)) = _data model
  /\ _valid (fst (fitness_func forecaster r2_score log_loss accuracy_score
                    model solution))
     = match forecaster (_data model) solution with
       | Ok _ => S (_valid model)
       | Raise _ => _valid model
       end.
Proof.
  unfold fitness_func.
  destruct (forecaster (_data model) solution) as [results | e].
  - destruct (record_score_counters r2_score log_loss accuracy_score
                (set_i (S (_i model)) model) solution results)
      as (Hi & Hv & Hd).
    rewrite Hi, Hv, Hd. auto.
  - destruct e; simpl; auto.
Qed.

Lemma evaluations_counters (forecaster : DataFrame -> config ->
    result (list elo_tuple)) (r2_score log_loss accuracy_score :
    list R -> list R -> result R) (solutions : list config) :
  forall model : ModelMeta,
    (_valid model <= _i model)%nat ->
    Forall (fun m => (_valid m <= _i m)%nat /\ _data m = _data model)
      (evaluations forecaster r2_score log_loss accuracy_score
         model solutions)
    /\ List.map _i (evaluations forecaster r2_score log_loss accuracy_score
                      model solutions)
       = seq (S (_i model))
           (length (evaluations forecaster r2_score log_loss accuracy_score
                      model solutions)).
Proof.
  induction solutions as [| solution solutions IH]; intros model Hle;
    cbn [evaluations].
  - split; [constructor | reflexivity].
  - destruct (fitness_func_counters forecaster r2_score log_loss
                accuracy_score model solution) as (Hi & Hd & Hv).
    destruct (fitness_func _ _ _ _ model solution) as [model' r].
    simpl in Hi, Hd, Hv.
    assert (Hle' : (_valid model' <= _i model')%nat)
      by (destruct (forecaster _ _); lia).
    destruct r as [sc | e].
    + destruct (IH model' Hle') as (HF & Hseq). split.
      * constructor; [auto |].
        eapply List.Forall_impl; [| exact HF].
        intros m [? ?]. split; [assumption | congruence].
      * cbn [List.map length seq]. rewrite Hseq, Hi. reflexivity.
    + split; [constructor; [auto | constructor] |].
      cbn [List.map length seq]. now rewrite Hi.
Qed.

(** X13.  Each call of the fitness function adds one to the evaluation
    counter and leaves the data alone; it adds one to the counter of valid
    evaluations exactly when the forecaster returned.  Along any run that
    starts from a fresh model the evaluation counter counts the calls
    1, 2, 3, ..., and the valid counter never exceeds it. *)
Theorem fitness_counters :
  (forall forecaster r2_score log_loss accuracy_score model solution,
      _i (fst (fitness_func forecaster r2_score log_loss accuracy_score
                 model solution)) = S (_i model)
      /\ _data (fst (fitness_func forecaster r2_score log_loss
                       accuracy_score model solution)) = _data model
      /\ _valid (fst (fitness_func forecaster r2_score log_loss
                        accuracy_score model solution))
         = match forecaster (_data model) solution with
           | Ok _ => S (_valid model)
           | Raise _ => _valid model
           end)
  /\ (forall forecaster r2_score log_loss accuracy_score data solutions,
        Forall (fun m => (_valid m <= _i m)%nat /\ _data m = data)
          (evaluations forecaster r2_score log_loss accuracy_score
             (ModelMeta_init data) solutions)
        /\ List.map _i (evaluations forecaster r2_score log_loss
                          accuracy_score (ModelMeta_init data) solutions)
           = seq 1 (length (evaluations forecaster r2_score log_loss
                              accuracy_score (ModelMeta_init data)
                              solutions))).
Proof.
  split; [exact fitness_func_counters |].
  intros f r2 ll acc data solutions.
  apply (evaluations_counters f r2 ll acc solutions (ModelMeta_init data)).
  simpl. lia.
Qed.

(** ** A best score without its configuration *)

(** X14.  When a solution that lacks some hyperparameter scores strictly
    better than the best so far, the fitness function raises [KeyError]
    from [tuple_to_dict], after it has already replaced the recorded best
    scores: the model is left with the new best score and the old best
    configuration. *)
Theorem fitness_func_partial_solution (forecaster : DataFrame -> config ->
    result (list elo_tuple)) (r2_score log_loss accuracy_score :
    list R -> list R -> result R) (model : ModelMeta) (solution : config)
    (results : list elo_tuple) (elo_prob1 : list R) (x l a : R)
    (g : Params) :
  forecaster (_data model) solution = Ok results ->
  last_column results = Ok elo_prob1 ->
  r2_score (List.map win1 (_data model)) elo_prob1 = Ok x ->
  fitness_gt (Val x) (score (_best model)) = true ->
  log_loss (List.map win1 (_data model)) elo_prob1 = Ok l ->
  accuracy_score (List.map win1 (_data model)) (List.map np_round elo_prob1)
  = Ok a ->
  solution g = None ->
  snd (fitness_func forecaster r2_score log_loss accuracy_score
         model solution) = Raise KeyError
  /\ _best (fst (fitness_func forecaster r2_score log_loss accuracy_score
                   model solution))
     = mk_scores (Val x) (Some x) (Some l) (Some a)
  /\ _best_config (fst (fitness_func forecaster r2_score log_loss
                          accuracy_score model solution))
     = _best_config model.
Proof.
  intros Hf Hlast Hr2 Hgt Hll Hacc Hg.
  unfold fitness_func. rewrite Hf. unfold record_score.
  rewrite Hlast. cbn [_data set_valid set_i _best].
  rewrite Hr2, Hgt, Hll, Hacc.
  rewrite (tuple_to_dict_from_missing solution all_Params g
             (all_Params_complete g) Hg empty_cfg
           : tuple_to_dict solution all_Params = Raise KeyError).
  simpl. auto.
Qed.

Lemma fitness_func_partial_solution_witness :
  snd (fitness_func enrich_elo metric_zero metric_zero metric_zero
         (ModelMeta_init [match_AB]) cfg_plain) = Raise KeyError
  /\ _best (fst (fitness_func enrich_elo metric_zero metric_zero metric_zero
                   (ModelMeta_init [match_AB]) cfg_plain))
     = mk_scores (Val 0) (Some 0) (Some 0) (Some 0)
  /\ _best_config (fst (fitness_func enrich_elo metric_zero metric_zero
                          metric_zero (ModelMeta_init [match_AB]) cfg_plain))
     = _best_config (ModelMeta_init [match_AB]).
Proof.
  apply (fitness_func_partial_solution enrich_elo metric_zero metric_zero
           metric_zero (ModelMeta_init [match_AB]) cfg_plain
           [(1000, 1000, 1005, 995, 1 / 2)] [1 / 2] 0 0 0 revert);
    try reflexivity.
  exact enrich_elo_plain_example.
Defined.

(** X15.  On a model with an empty DataFrame the fitness function raises
    [IndexError], whatever the solution: the replay returns an array
    without a column to take, after both counters have been moved. *)
Theorem fitness_func_empty_data (r2_score log_loss accuracy_score :
    list R -> list R -> result R) (model : ModelMeta) (solution : config) :
  _data model = [] ->
  fitness_func enrich_elo r2_score log_loss accuracy_score model solution
  = (set_valid (S (_valid model)) (set_i (S (_i model)) model),
     Raise IndexError).
Proof.
  intros Hd. unfold fitness_func. rewrite Hd. reflexivity.
Qed.

Lemma fitness_func_empty_data_witness :
  fitness_func enrich_elo metric_zero metric_zero metric_zero
    (ModelMeta_init []) empty_cfg
  = (set_valid 1 (set_i 1 (ModelMeta_init [])), Raise IndexError).
Proof.
  apply (fitness_func_empty_data metric_zero metric_zero metric_zero
           (ModelMeta_init []) empty_cfg).
  reflexivity.
Defined.

(** ** Random search: what is proposed and what is returned *)

Lemma numpy_arange_empty (lo hi st : Q) :
  (0 < st)%Q -> (hi <= lo)%Q -> numpy_arange lo hi st = [].
Proof.
  intros Hst Hle. unfold numpy_arange.
  assert (Hq : ((hi - lo) / st <= 0)%Q).
  { apply Qle_shift_div_r; [exact Hst | lra]. }
  apply Qceiling_resp_le in Hq. change (Qceiling 0) with 0%Z in Hq.
  replace (Z.to_nat (Qceiling ((hi - lo) / st))) with 0%nat by lia.
  reflexivity.
Qed.

Lemma draw_config_within (draw : Params -> nat) (c : config) :
  draw_config spaces draw empty_cfg = Ok c -> within_ranges c.
Proof.
  intros H g.
  destruct (draw_config_lookup draw spaces _ _ H g)
    as [(s & v & Hin & Hv & Hc) | (Hnin & _)].
  - exists v. split; [exact Hc |].
    unfold spaces in Hin. apply in_map_iff in Hin as (g' & Heq & _).
    injection Heq as <- <-.
    pose proof (numpy_arange_bounds (low (space g')) (high (space g'))
                  (step (space g')) (step_positive g')) as Hb.
    rewrite List.Forall_forall in Hb. exact (Hb v Hv).
  - exfalso. apply Hnin. unfold spaces. rewrite List.map_map. simpl.
    exact (all_Params_complete g).
Qed.

Lemma within_ranges_copy (c d : config) :
  within_ranges c -> tuple_to_dict c all_Params = Ok d -> within_ranges d.
Proof.
  intros Hc Hd g. destruct (Hc g) as (v & Hv & Hb).
  exists v. split; [| exact Hb].
  destruct (tuple_to_dict_from_Ok c all_Params _ _ Hd g) as [Hin _].
  destruct (Hin (all_Params_complete g)) as [-> _]. exact Hv.
Qed.

Lemma within_ranges_copies (c : config) :
  within_ranges c -> exists d, tuple_to_dict c all_Params = Ok d.
Proof.
  intros Hc. apply tuple_to_dict_from_returns.
  intros g _. destruct (Hc g) as (v & -> & _). discriminate.
Qed.

(** X16.  Every configuration random search draws has each of the twelve
    hyperparameters, with a value of its range [low <= v < high]: the
    upper bound itself is never proposed.  [tuple_to_dict] therefore
    never fails on a drawn configuration and returns one within the
    ranges; and a range whose [high] is not above its [low] has no
    candidate at all. *)
Theorem drawn_config_within_ranges :
  (forall (draw : Params -> nat) (c : config),
      draw_config spaces draw empty_cfg = Ok c ->
      within_ranges c
      /\ exists d, tuple_to_dict c all_Params = Ok d /\ within_ranges d)
  /\ (forall lo hi st : Q,
        (0 < st)%Q -> (hi <= lo)%Q -> numpy_arange lo hi st = []).
Proof.
  split; [| exact numpy_arange_empty].
  intros draw c H. pose proof (draw_config_within draw c H) as Hc.
  split; [exact Hc |].
  destruct (within_ranges_copies c Hc) as [d Hd].
  exists d. split; [exact Hd | exact (within_ranges_copy c d Hc Hd)].
Qed.

Lemma drawn_config_within_ranges_witness :
  exists c, draw_config spaces (fun _ => 0%nat) empty_cfg = Ok c
            /\ within_ranges c
            /\ numpy_arange 5 5 1 = [].
Proof.
  destruct drawn_config_within_ranges as (H1 & H2).
  destruct (draw_config_returns (fun _ => 0%nat) spaces spaces_nonempty
              empty_cfg) as [c Hc].
  exists c. split; [exact Hc |].
  split; [exact (proj1 (H1 _ c Hc)) |].
  apply (H2 5%Q 5%Q 1%Q); [reflexivity | discriminate].
Defined.

Lemma record_score_best_config (r2_score log_loss accuracy_score :
    list R -> list R -> result R) (model : ModelMeta) (solution : config)
    (results : list elo_tuple) :
  _best_config (fst (record_score r2_score log_loss accuracy_score
                       model solution results)) = _best_config model
  \/ exists d, tuple_to_dict solution all_Params = Ok d
               /\ _best_config (fst (record_score r2_score log_loss
                                       accuracy_score model solution
                                       results)) = Some d.
Proof.
  unfold record_score.
  destruct (last_column results); [| left; reflexivity].
  destruct (r2_score _ _); [| left; reflexivity].
  destruct (fitness_gt _ _); [| left; reflexivity].
  destruct (log_loss _ _); [| left; reflexivity].
  destruct (accuracy_score _ _); [| left; reflexivity].
  destruct (tuple_to_dict solution all_Params) as [d |];
    [right; exists d; auto | left; reflexivity].
Qed.

Lemma fitness_func_best_config (forecaster : DataFrame -> config ->
    result (list elo_tuple)) (r2_score log_loss accuracy_score :
    list R -> list R -> result R) (model : ModelMeta) (solution : config) :
  _best_config (fst (fitness_func forecaster r2_score log_loss
                       accuracy_score model solution)) = _best_config model
  \/ exists d, tuple_to_dict solution all_Params = Ok d
               /\ _best_config (fst (fitness_func forecaster r2_score
                                       log_loss accuracy_score model
                                       solution)) = Some d.
Proof.
  unfold fitness_func.
  destruct (forecaster (_data model) solution) as [results | e].
  - apply (record_score_best_config r2_score log_loss accuracy_score
             (set_i (S (_i model)) model) solution results).
  - left. destruct e; reflexivity.
Qed.

Lemma optimize_loop_within (r2_score log_loss accuracy_score :
    list R -> list R -> result R) (rng : nat -> Params -> nat)
    (gens : list nat) :
  forall model : ModelMeta,
    (forall d, _best_config model = Some d -> within_ranges d) ->
    forall d,
      _best_config (fst (optimize_loop r2_score log_loss accuracy_score
                           rng gens model)) = Some d ->
      within_ranges d.
Proof.
  induction gens as [| gen gens IH]; intros model Hm d;
    cbn [optimize_loop].
  - apply Hm.
  - destruct (draw_config spaces (rng gen) empty_cfg) as [c | e] eqn:Hc;
      [| apply Hm].
    pose proof (fitness_func_best_config enrich_elo r2_score log_loss
                  accuracy_score model c) as Hb.
    destruct (fitness_func _ _ _ _ model c) as [model' r]. simpl in Hb.
    assert (Hm' : forall d', _best_config model' = Some d' ->
                             within_ranges d').
    { intros d' Hd'. destruct Hb as [Hb | (d0 & Hd0 & Hb)].
      - apply Hm. congruence.
      - assert (d' = d0) as -> by congruence.
        exact (within_ranges_copy c d0 (draw_config_within _ _ Hc) Hd0). }
    destruct r; [apply IH, Hm' | apply Hm'].
Qed.

(** X17.  Whatever random search returns as the best configuration has
    each of the twelve hyperparameters, with a value of its declared
    range. *)
Theorem random_optimize_within_ranges (r2_score log_loss accuracy_score :
    list R -> list R -> result R) (df : DataFrame) (num_gens : nat)
    (rng : nat -> Params -> nat) (d : config) :
  random_optimize r2_score log_loss accuracy_score df num_gens rng
  = Ok (Some d) ->
  within_ranges d.
Proof.
  unfold random_optimize. intros H.
  pose proof (optimize_loop_within r2_score log_loss accuracy_score rng
                (seq 0 num_gens) (ModelMeta_init df)) as Hw.
  destruct (optimize_loop _ _ _ rng (seq 0 num_gens) (ModelMeta_init df))
    as [model' r].
  destruct r as [[] | e]; [| discriminate].
  simpl in H. injection H as H. apply Hw; [discriminate | exact H].
Qed.

Lemma within_ranges_R (c : config) (g : Params) :
  within_ranges c ->
  exists x, c g = Some x /\ Q2R (low (space g)) <= x < Q2R (high (space g)).
Proof.
  intros Hc. destruct (Hc g) as (v & Hv & Hlo & Hhi).
  exists (Q2R v). split; [exact Hv |].
  split; [now apply Qle_Rle | now apply Qlt_Rlt].
Qed.

Lemma calc_elo_level_returns (c : config) (s : R) :
  within_ranges c ->
  exists r, calc_elo c s s (Fin (1 - 0)) (Some 0%Z) (Some 0%Z) 0 0 false
            = Ok r.
Proof.
  intros Hc.
  destruct (within_ranges_R c elo_avg Hc) as (a & Ha & _).
  destruct (within_ranges_R c revert Hc) as (rv & Hrv & _).
  destruct (within_ranges_R c hfa_mod Hc) as (h & Hh & Hhb).
  destruct (within_ranges_R c rest_mul Hc) as (rm & Hrm & _).
  destruct (within_ranges_R c k_start Hc) as (k & Hk & _).
  destruct (within_ranges_R c k_end Hc) as (ke & Hke & _).
  destruct (within_ranges_R c k_rate Hc) as (rate & Hrate & _).
  destruct (within_ranges_R c ac_mul Hc) as (ml & Hml & Hmlb).
  destruct (within_ranges_R c ac_mod Hc) as (md & Hmd & Hmdb).
  destruct (within_ranges_R c mov_mul Hc) as (mm & Hmm & _).
  destruct (within_ranges_R c mov_mod Hc) as (mo & Hmo & _).
  unfold Q2R in Hhb, Hmlb, Hmdb. simpl in Hhb, Hmlb, Hmdb.
  set (adj := s + (a * rv + s * (1 - rv) - s)).
  assert (Hd : calc_pre_diff adj adj 0 0 false c = h).
  { unfold calc_pre_diff. rewrite Hh, Hrm. simpl. rewrite minus_IZR. lra. }
  assert (Hr : Rpower 10 (- h / 400) <= float_max)
    by (apply diff_in_range; lra).
  unfold calc_elo. cbv zeta.
  rewrite !(shift_elo_pre_revert s a rv c Ha Hrv), !bind_Ok.
  fold adj. rewrite Hd.
  assert (Ht : truthy (Fin (1 - 0)) && negb (math_isnan (Fin (1 - 0))) = true).
  { unfold truthy. settle_R. reflexivity. }
  rewrite Ht.
  assert (Hs : exists sh, shift_elo_post h (1 - 0) (Some 0%Z) (Some 0%Z)
                            c true = Ok sh).
  { unfold shift_elo_post.
    rewrite (cfg_in_Some c ac_mod md Hmd), (cfg_in_Some c mov_mul mm Hmm),
      (cfg_in_Some c k_rate rate Hrate).
    rewrite !(cfg_get_Some c ac_mod md Hmd), (cfg_get_Some c ac_mul ml Hml),
      (cfg_get_Some c mov_mul mm Hmm), (cfg_get_Some c mov_mod mo Hmo),
      (cfg_get_Some c k_start k Hk), (cfg_get_Some c k_rate rate Hrate),
      !bind_Ok.
    destruct (Rlt_dec 0 (1 - 0)) as [_ | Hn]; [| lra].
    unfold py_div.
    destruct (Req_dec_T (h * ml + md) 0) as [Hz | _]; [exfalso; nra |].
    rewrite bind_Ok. unfold math_log.
    destruct (Rle_dec (Rmax (Rabs (1 - 0)) 1) 0) as [Hle | _].
    { pose proof (Rmax_r (Rabs (1 - 0)) 1). lra. }
    rewrite !bind_Ok, (elo_probability_in_range _ Hr), !bind_Ok.
    cbn [py_add_int]. rewrite !bind_Ok.
    cbv zeta.
    match goal with
    | |- context [Rle_dec ?x rate] => destruct (Rle_dec x rate)
    end.
    - rewrite bind_Ok. eexists; reflexivity.
    - rewrite (cfg_get_Some c k_end ke Hke), bind_Ok.
      eexists; reflexivity. }
  destruct Hs as [sh ->].
  rewrite bind_Ok, (elo_probability_in_range _ Hr), bind_Ok.
  eexists; reflexivity.
Qed.

Lemma random_optimize_example :
  exists d,
    random_optimize metric_zero metric_zero metric_zero [match_AB] 1
      (fun _ _ => 0%nat) = Ok (Some d).
Proof.
  destruct (draw_config_returns (fun _ => 0%nat) spaces spaces_nonempty
              empty_cfg) as [c Hc].
  pose proof (draw_config_within _ _ Hc) as Hw.
  destruct (within_ranges_copies c Hw) as [d Hd].
  destruct (within_ranges_R c start Hw) as (s & Hs & _).
  destruct (calc_elo_level_returns c s Hw) as [r Hr].
  exists d. unfold random_optimize. cbn [seq optimize_loop].
  rewrite Hc. unfold fitness_func.
  change (_data (ModelMeta_init [match_AB])) with [match_AB].
  rewrite (enrich_elo_single match_AB c s) by (discriminate || exact Hs).
  cbn [match_AB score1 score2 played1 played2 rest1 rest2 neutral py_sub].
  rewrite Hr, bind_Ok. unfold record_score.
  cbn [last_column metric_zero set_valid set_i _best ModelMeta_init score
       fitness_gt].
  rewrite Hd. reflexivity.
Qed.

Lemma random_optimize_within_ranges_witness :
  exists d,
    random_optimize metric_zero metric_zero metric_zero [match_AB] 1
      (fun _ _ => 0%nat) = Ok (Some d)
    /\ within_ranges d.
Proof.
  destruct random_optimize_example as [d Hd].
  exists d. split; [exact Hd |].
  exact (random_optimize_within_ranges metric_zero metric_zero metric_zero
           [match_AB] 1 (fun _ _ => 0%nat) d Hd).
Defined.

(** X18.  For a configuration within the search ranges, the post-match
    shift (logarithmic mode, known game counts) is computed without any
    exception whenever the rating difference is at least -123200 and the
    winner was not the underdog by 350 points or more: the zero
    denominator of the autocorrelation term can only arise beyond that. *)
Theorem shift_elo_post_safe (c : config) (d mov : R) (n1 n2 : Z) :
  within_ranges c -> -123200 <= d -> -350 < winner_diff d mov ->
  exists s, shift_elo_post d mov (Some n1) (Some n2) c true = Ok s.
Proof.
  intros Hc Hd Hw.
  destruct (within_ranges_R c k_start Hc) as (k & Hk & _).
  destruct (within_ranges_R c k_end Hc) as (ke & Hke & _).
  destruct (within_ranges_R c k_rate Hc) as (rate & Hrate & _).
  destruct (within_ranges_R c ac_mul Hc) as (ml & Hml & Hmlb).
  destruct (within_ranges_R c ac_mod Hc) as (md & Hmd & Hmdb).
  destruct (within_ranges_R c mov_mul Hc) as (mm & Hmm & _).
  destruct (within_ranges_R c mov_mod Hc) as (mo & Hmo & _).
  unfold Q2R in Hmlb, Hmdb. simpl in Hmlb, Hmdb.
  unfold shift_elo_post. fold (winner_diff d mov).
  rewrite (cfg_in_Some c ac_mod md Hmd), (cfg_in_Some c mov_mul mm Hmm),
    (cfg_in_Some c k_rate rate Hrate).
  rewrite !(cfg_get_Some c ac_mod md Hmd), (cfg_get_Some c ac_mul ml Hml),
    (cfg_get_Some c mov_mul mm Hmm), (cfg_get_Some c mov_mod mo Hmo),
    (cfg_get_Some c k_start k Hk), (cfg_get_Some c k_rate rate Hrate),
    !bind_Ok.
  unfold py_div.
  destruct (Req_dec_T (winner_diff d mov * ml + md) 0) as [Hz | _].
  { exfalso. destruct (Rle_dec 0 (winner_diff d mov)); nra. }
  rewrite bind_Ok. unfold math_log.
  destruct (Rle_dec (Rmax (Rabs mov) 1) 0) as [Hle | _].
  { pose proof (Rmax_r (Rabs mov) 1). lra. }
  rewrite !bind_Ok, (elo_probability_in_range _ (diff_in_range _ Hd)),
    !bind_Ok.
  cbn [py_add_int]. rewrite !bind_Ok. cbv zeta.
  match goal with
  | |- context [Rle_dec ?x rate] => destruct (Rle_dec x rate)
  end.
  - rewrite bind_Ok. eexists; reflexivity.
  - rewrite (cfg_get_Some c k_end ke Hke), bind_Ok. eexists; reflexivity.
Qed.

Lemma shift_elo_post_safe_witness :
  exists c,
    draw_config spaces (fun _ => 0%nat) empty_cfg = Ok c
    /\ exists s, shift_elo_post 100 (-3) (Some 1%Z) (Some 2%Z) c true = Ok s.
Proof.
  destruct (draw_config_returns (fun _ => 0%nat) spaces spaces_nonempty
              empty_cfg) as [c Hc].
  exists c. split; [exact Hc |].
  apply (shift_elo_post_safe c 100 (-3) 1 2 (draw_config_within _ _ Hc)).
  - lra.
  - unfold winner_diff. settle_R.
Defined.

(** ** [tuple_to_dict] on sequences *)

Section TupleToDictFacts.
Context {K A : Type} `{Countable K}.

Lemma tuple_get_Ok (tup : list A) (i : nat) (x : A) :
  tup !! i = Some x -> tuple_get tup i = Ok x.
Proof. unfold tuple_get. now intros ->. Qed.

Lemma dict_of_enumerate_Ok (tup : list A) (keys : list K) :
  forall (i : nat) (d : gmap K A),
    (i + length keys <= length tup)%nat ->
    exists d',
      dict_of_enumerate tup i keys d = Ok d'
      /\ (forall k, ~ In k keys -> d' !! k = d !! k)
      /\ (NoDup keys ->
          forall j k, keys !! j = Some k -> d' !! k = tup !! (i + j)%nat).
Proof.
  induction keys as [| k0 keys IH]; intros i d Hlen; simpl in *.
  - exists d. split; [reflexivity |].
    split; [reflexivity | intros _ j k Hj; discriminate].
  - destruct (tup !! i) as [x |] eqn:Hx;
      [| apply lookup_ge_None in Hx; lia].
    rewrite (tuple_get_Ok _ _ _ Hx), bind_Ok.
    destruct (IH (S i) (<[k0 := x]> d)) as (d' & Hd' & Hout & Hin); [lia |].
    exists d'. split; [exact Hd' |]. split.
    + intros k Hk. rewrite (Hout k) by tauto.
      apply lookup_insert_ne. intros ->. tauto.
    + intros Hnd j k Hj. apply NoDup_cons in Hnd as [Hk0 Hnd].
      destruct j as [| j]; simpl in Hj.
      * injection Hj as <-.
        rewrite (Hout k0), lookup_insert_eq, Nat.add_0_r, Hx;
          [reflexivity |].
        rewrite <- list_elem_of_In. exact Hk0.
      * rewrite (Hin Hnd j k Hj). f_equal. lia.
Qed.

Lemma dict_of_enumerate_short (tup : list A) (keys : list K) :
  forall (i : nat) (d : gmap K A),
    (i <= length tup)%nat -> (length tup < i + length keys)%nat ->
    dict_of_enumerate tup i keys d = Raise IndexError.
Proof.
  induction keys as [| k0 keys IH]; intros i d Hi Hlen; simpl in *; [lia |].
  unfold tuple_get. destruct (tup !! i) as [x |] eqn:Hx; [| reflexivity].
  rewrite bind_Ok. apply lookup_lt_Some in Hx. apply IH; lia.
Qed.

(** X19.  [tuple_to_dict] on a tuple: called without keys it raises
    [TypeError]; with more keys than values it raises [IndexError]; with
    pairwise distinct keys, no more than there are values, it returns the
    dict that maps the [j]-th key to the [j]-th value and has no other
    key. *)
Theorem tuple_to_dict_seq_spec (tup : list A) :
  tuple_to_dict_seq tup (None : option (list K)) = Raise TypeError
  /\ (forall keys : list K,
        (length tup < length keys)%nat ->
        tuple_to_dict_seq tup (Some keys) = Raise IndexError)
  /\ (forall keys : list K,
        (length keys <= length tup)%nat -> NoDup keys ->
        exists d,
          tuple_to_dict_seq tup (Some keys) = Ok d
          /\ (forall j k, keys !! j = Some k -> d !! k = tup !! j)
          /\ (forall k, ~ In k keys -> d !! k = None)).
Proof.
  split; [reflexivity | split].
  - intros keys Hlen. unfold tuple_to_dict_seq.
    destruct keys as [| k keys]; [simpl in Hlen; lia |].
    rewrite bind_Ok. apply dict_of_enumerate_short; simpl in *; lia.
  - intros keys Hlen Hnd. unfold tuple_to_dict_seq.
    assert (Hk : (match keys with
                  | [] => Ok []
                  | k :: keys' => Ok (k :: keys')
                  end : result (list K)) = Ok keys)
      by (destruct keys; reflexivity).
    rewrite Hk, bind_Ok.
    destruct (dict_of_enumerate_Ok tup keys 0 ∅ Hlen)
      as (d & Hd & Hout & Hin).
    exists d. split; [exact Hd |]. split.
    + intros j k Hj. exact (Hin Hnd j k Hj).
    + intros k Hk'. rewrite (Hout k Hk'). apply lookup_empty.
Qed.
End TupleToDictFacts.

Lemma tuple_to_dict_seq_spec_witness :
  tuple_to_dict_seq [42; 84; 126]%Z (Some ["a"; "b"; "c"; "d"]%string)
  = Raise IndexError
  /\ exists d : gmap string Z,
       tuple_to_dict_seq [42; 84; 126]%Z (Some ["a"; "b"; "c"]%string)
       = Ok d
       /\ d !! "b"%string = Some 84%Z.
Proof.
  destruct (tuple_to_dict_seq_spec (K := string) [42; 84; 126]%Z)
    as (_ & H2 & H3).
  split.
  - apply H2. simpl. lia.
  - destruct (H3 ["a"; "b"; "c"]%string) as (d & Hd & Hin & _).
    + simpl. lia.
    + compute_done.
    + exists d. split; [exact Hd |]. exact (Hin 1%nat "b"%string eq_refl).
Defined.

(** ** Saturation in double precision *)

Lemma double_shift_elo_post_plain (M : Float64.libm) (d mov k p : float)
    (n1 n2 : option Z) (cfg : Float64.config) :
  cfg k_start = Some k -> cfg k_rate = None ->
  cfg ac_mod = None -> cfg mov_mul = None ->
  Float64.elo_probability M d = Ok p ->
  Float64.shift_elo_post M d mov n1 n2 cfg true
  = Ok (k * (Float64.actual_win mov - p) * 1 * 1)%float.
Proof.
  intros Hk Hrate Hac Hmov Hp.
  unfold Float64.shift_elo_post, Float64.cfg_in, Float64.cfg_get.
  rewrite Hac, Hmov, Hrate, Hk. cbv iota. rewrite !bind_Ok, Hp.
  reflexivity.
Qed.

(** X20.  In double arithmetic the win probability saturates.  When
    [math.pow(10, -diff/400)] returns a value so small that adding 1 to it
    gives 1.0, [elo_probability] returns exactly 1.0; with only [k_start]
    configured, a win of team 1 then shifts the ratings by [k * 0.0].
    [calc_elo({k_start: 10}, 11000, 1000, 1)] returns both ratings as they
    were, with the win probability 1.0. *)
Theorem win_probability_saturates :
  (forall (M : Float64.libm) (d x : float),
      Float64.math_pow10 M (- d / 400)%float = Ok x ->
      (x + 1)%float = 1%float ->
      Float64.elo_probability M d = Ok 1%float)
  /\ (forall (M : Float64.libm) (d mov k : float) (n1 n2 : option Z)
             (cfg : Float64.config),
        cfg k_start = Some k -> cfg k_rate = None ->
        cfg ac_mod = None -> cfg mov_mul = None ->
        Float64.elo_probability M d = Ok 1%float ->
        (0 <? mov)%float = true ->
        Float64.shift_elo_post M d mov n1 n2 cfg true
        = Ok (k * 0 * 1 * 1)%float)
  /\ Float64.calc_elo libm_sample (Float64.mk_cfg [(k_start, 10%float)])
       11000%float 1000%float 1%float (Some 0%Z) (Some 0%Z) 0 0 false
     = Ok (11000, 1000, 11000, 1000, 1)%float.
Proof.
  split; [| split].
  - intros M d x Hx H1.
    rewrite (double_elo_probability_returns M d x Hx).
    + rewrite H1. reflexivity.
    + rewrite H1. reflexivity.
  - intros M d mov k n1 n2 cfg Hk Hrate Hac Hmov Hp Hwin.
    rewrite (double_shift_elo_post_plain M d mov k 1%float n1 n2 cfg
               Hk Hrate Hac Hmov Hp).
    unfold Float64.actual_win. rewrite Hwin. reflexivity.
  - vm_compute. reflexivity.
Qed.

Lemma win_probability_saturates_witness :
  Float64.elo_probability libm_sample 10000%float = Ok 1%float
  /\ Float64.shift_elo_post libm_sample 10000%float 1%float (Some 0%Z)
       (Some 0%Z) (Float64.mk_cfg [(k_start, 10%float)]) true
     = Ok (10 * 0 * 1 * 1)%float.
Proof.
  destruct win_probability_saturates as (H1 & H2 & _).
  assert (Hp : Float64.elo_probability libm_sample 10000%float = Ok 1%float).
  { apply (H1 libm_sample 10000%float 0x1.ef2d0f5da7dd9p-84%float);
      reflexivity. }
  split; [exact Hp |].
  apply (H2 libm_sample 10000%float 1%float 10%float (Some 0%Z) (Some 0%Z)
           (Float64.mk_cfg [(k_start, 10%float)]));
    [reflexivity | reflexivity | reflexivity | reflexivity | exact Hp
    | reflexivity].
Defined.
